(** * Real-time face recognition loop (main.py): model and properties

    A shallow embedding of [main.py]: the one-time bootstrap
    ([initialize_rekognition], [setup_collection], [index_known_face]) and the
    capture / encode / search / annotate / render / poll loop of
    [run_face_recognition].

    The Python code talks to three external worlds: the Rekognition service
    (through boto3), the camera and the display (through OpenCV).  Their
    answers are inputs of the model: every external call takes the answer the
    world gives to it (a value or a raised exception) and is recorded in a
    trace of events, so that a statement such as "no search is performed"
    or "the camera is released once" is a statement about that trace. *)

From Stdlib Require Import ZArith Floats.
From stdpp Require Import base option list strings gmap.

Local Open Scope string_scope.
Local Open Scope list_scope.

(** ** Python exceptions *)

Module Py.

(** The exception classes the program distinguishes.  [Error cls] stands for
    any other subclass of [Exception] (botocore's ClientError, cv2.error,
    PermissionError, ...).  [KeyboardInterrupt] and [SystemExit] derive from
    [BaseException] only, so [except Exception] lets them through. *)
Inductive exn : Type :=
| FileNotFoundError
| ResourceAlreadyExistsException
| KeyError (key : string)
| Error (cls : string)
| KeyboardInterrupt
| SystemExit (code : Z).

(** [isinstance(e, Exception)] *)
Definition is_Exception (e : exn) : bool :=
  match e with
  | KeyboardInterrupt | SystemExit _ => false
  | _ => true
  end.

Definition is_FileNotFoundError (e : exn) : bool :=
  match e with FileNotFoundError => true | _ => false end.

Definition is_ResourceAlreadyExists (e : exn) : bool :=
  match e with ResourceAlreadyExistsException => true | _ => false end.

(** What an external call answers: a value, or an exception it raises. *)
Inductive outcome (A : Type) : Type :=
| Value (a : A)
| Throw (e : exn).
Arguments Value {A} a.
Arguments Throw {A} e.

(** Truthiness of an [os.getenv] result: [None] and the empty string are
    falsy. *)
Definition truthy (v : option string) : bool :=
  match v with
  | Some s => negb (String.eqb s "")
  | None => false
  end.

End Py.
Import Py.

(** ** Data of the external interfaces *)

Definition bytes : Type := list Byte.byte.

(** A raw frame as the camera delivers it. *)
Definition image : Type := list Byte.byte.

(** One [cv2.putText] call: the text, its origin and its BGR colour (font,
    scale 1 and thickness 2 are the same at every call site). *)
Record Text : Type := mkText {
  text : string;
  org : Z * Z;
  color : Z * Z * Z
}.

(** The frame of one iteration: [putText] draws on it in place, [imshow]
    displays it. *)
Record Frame : Type := mkFrame {
  pixels : image;
  drawn : list Text
}.

Definition putText_on (f : Frame) (t : Text) : Frame :=
  {| pixels := pixels f; drawn := drawn f ++ [t] |}.

Module Rekognition.

Record CreateCollectionResponse : Type := {
  CollectionArn : string
}.

(** [ExternalImageId] is present only for faces indexed with one: reading it
    with [match['Face']['ExternalImageId']] raises [KeyError] otherwise. *)
Record FaceT : Type := {
  FaceId : string;
  ExternalImageId : option string
}.

Record FaceMatch : Type := {
  Similarity : float;
  Face : FaceT
}.

(** [FaceMatches] may be absent from the response: the code reads it with
    [resp.get('FaceMatches', [])]. *)
Record SearchResponse : Type := {
  FaceMatches : option (list FaceMatch)
}.

End Rekognition.
Import Rekognition.

(** ** Configuration (module-level constants of main.py) *)

Definition COLLECTION_ID : string := "my-face-collection".
Definition KNOWN_FACE_IMAGE : string := "me.jpg".
Definition KNOWN_FACE_ID : string := "S_Bussiso_Dube".
Definition SIMILARITY_THRESHOLD : float := 85.0%float.

(** ** Events *)

Inductive level : Type := DEBUG | INFO | WARNING | ERROR.

(** The log records of main.py, one constructor per [logging] call site, with
    the values its f-string interpolates. *)
Inductive message : Type :=
| CredentialsNotFound
| ClientInitialized (region : string)
| ClientInitError (e : exn)
| CollectionCreated (cid arn : string)
| CollectionExists (cid : string)
| CollectionError (cid : string) (e : exn)
| FaceIndexed (path ext : string)
| ImageNotFound (path : string)
| IndexError (path : string) (e : exn)
| StartingCapture
| WebcamNotOpened
| GrabFailed
| EncodeFailed
| MatchFound (face_id : string) (sim : float)
| BelowThreshold (face_id : string) (sim : float)
| NoFaces
| SearchFailed (e : exn)
| QuitPressed
| Releasing
| Released
| Finished.

(** The observable actions of the program, in the order it performs them. *)
Inductive event : Type :=
| log (l : level) (m : message)
| boto3_client (region : string)
| create_collection (cid : string)
| open_rb (path : string)
| index_faces (cid : string) (img : bytes) (ext : string)
| VideoCapture (index : Z)
| cap_read
| imencode (ext : string) (img : image)
| search_faces_by_image (cid : string) (img : bytes) (threshold : float) (max_faces : Z)
| putText (t : Text)
| imshow (winname : string) (f : Frame)
| waitKey (delay : Z)
| cap_release
| destroyAllWindows.

Definition is_search (e : event) : bool :=
  match e with search_faces_by_image _ _ _ _ => true | _ => false end.
Definition is_putText (e : event) : bool :=
  match e with putText _ => true | _ => false end.
Definition is_imshow (e : event) : bool :=
  match e with imshow _ _ => true | _ => false end.
Definition is_waitKey (e : event) : bool :=
  match e with waitKey _ => true | _ => false end.
Definition is_cap_read (e : event) : bool :=
  match e with cap_read => true | _ => false end.
Definition is_cap_release (e : event) : bool :=
  match e with cap_release => true | _ => false end.
Definition is_destroyAllWindows (e : event) : bool :=
  match e with destroyAllWindows => true | _ => false end.
Definition is_VideoCapture (e : event) : bool :=
  match e with VideoCapture _ => true | _ => false end.

(** Number of events of a trace that satisfy [p]. *)
Definition count (p : event -> bool) (t : list event) : nat :=
  length (List.filter p t).

(** ** The monad of the program

    A computation runs from a state of the two local devices, appends the
    events it performs to the trace, and ends by returning, by raising, or
    not at all: [Pending] is a loop that has consumed every scripted answer of
    the world and is still iterating. *)

Record Devices : Type := mkDevices {
  cap_opened : bool;   (* what [cap.isOpened()] answers *)
  windows : bool       (* is an OpenCV window on screen *)
}.

Inductive result (A : Type) : Type :=
| Returns (a : A)
| Raises (e : exn)
| Pending.
Arguments Returns {A} a.
Arguments Raises {A} e.
Arguments Pending {A}.

Definition M (A : Type) : Type := Devices -> list event * result A * Devices.

Definition ret {A} (a : A) : M A := fun d => ([], Returns a, d).

Definition bind {A B} (m : M A) (k : A -> M B) : M B :=
  fun d =>
    match m d with
    | (t, Returns a, d1) =>
        match k a d1 with
        | (t2, r, d2) => (t ++ t2, r, d2)
        end
    | (t, Raises e, d1) => (t, Raises e, d1)
    | (t, Pending, d1) => (t, Pending, d1)
    end.

#[global] Instance M_ret : MRet M := @ret.
#[global] Instance M_bind : MBind M := fun A B k m => bind m k.

Definition raise {A} (e : exn) : M A := fun d => ([], Raises e, d).

(** [sys.exit(code)] raises [SystemExit]. *)
Definition sys_exit {A} (code : Z) : M A := raise (SystemExit code).

(** An action with no answer. *)
Definition emit (e : event) : M unit := fun d => ([e], Returns tt, d).

(** An external call: it is recorded, then answers what the world answers. *)
Definition call {A} (e : event) (answer : outcome A) : M A :=
  fun d =>
    match answer with
    | Value a => ([e], Returns a, d)
    | Throw x => ([e], Raises x, d)
    end.

(** The first [except] clause whose class the exception is an instance of. *)
Fixpoint handler_for {A} (clauses : list ((exn -> bool) * (exn -> M A))) (e : exn)
    : option (M A) :=
  match clauses with
  | [] => None
  | (handles, handler) :: others =>
      if handles e then Some (handler e) else handler_for others e
  end.

(** [try: body  except C1: h1  except C2: h2 ...] *)
Definition try_except {A} (body : M A) (clauses : list ((exn -> bool) * (exn -> M A)))
    : M A :=
  fun d =>
    match body d with
    | (t, Raises e, d1) =>
        match handler_for clauses e with
        | Some handler =>
            match handler d1 with
            | (t2, r, d2) => (t ++ t2, r, d2)
            end
        | None => (t, Raises e, d1)
        end
    | other => other
    end.

(** [try: body  finally: cleanup].  The cleanup runs when the body returns or
    raises; an exception of the body is raised again after it. *)
Definition try_finally {A} (body : M A) (cleanup : M unit) : M A :=
  fun d =>
    match body d with
    | (t, Pending, d1) => (t, Pending, d1)
    | (t, r, d1) =>
        match cleanup d1 with
        | (t2, Returns _, d2) => (t ++ t2, r, d2)
        | (t2, Raises e, d2) => (t ++ t2, Raises e, d2)
        | (t2, Pending, d2) => (t ++ t2, Pending, d2)
        end
    end.

(** [d[key]] on a dictionary where the key may be missing. *)
Definition getitem {A} (v : option A) (key : string) : M A :=
  match v with
  | Some a => ret a
  | None => raise (KeyError key)
  end.

Definition get_state : M Devices := fun d => ([], Returns d, d).
Definition set_state (d : Devices) : M unit := fun _ => ([], Returns tt, d).

(** ** Bootstrap *)

(** What the world answers outside the loop. *)
Record Env : Type := mkEnv {
  getenv : string -> option string;
  on_boto3_client : string -> outcome unit;
  on_create_collection : string -> outcome CreateCollectionResponse;
  on_open_rb : string -> outcome bytes;
  on_index_faces : string -> bytes -> string -> outcome unit;
  on_VideoCapture : Z -> bool
}.

Definition REGION_NAME (env : Env) : string :=
  default "us-east-1" (getenv env "AWS_REGION").

Definition initialize_rekognition (env : Env) : M unit :=
  let aws_access_key_id := getenv env "AWS_ACCESS_KEY_ID" in
  let aws_secret_access_key := getenv env "AWS_SECRET_ACCESS_KEY" in
  if negb (truthy aws_access_key_id) || negb (truthy aws_secret_access_key)
  then emit (log ERROR CredentialsNotFound);; sys_exit 1
  else
    try_except
      (rek ← call (boto3_client (REGION_NAME env)) (on_boto3_client env (REGION_NAME env));
       emit (log INFO (ClientInitialized (REGION_NAME env)));;
       mret rek)
      [(is_Exception,
        fun e => emit (log ERROR (ClientInitError e));; sys_exit 1)].

Definition setup_collection (env : Env) (collection_id : string) : M unit :=
  try_except
    (response ← call (create_collection collection_id) (on_create_collection env collection_id);
     emit (log INFO (CollectionCreated collection_id (CollectionArn response))))
    [(is_ResourceAlreadyExists,
      fun _ => emit (log INFO (CollectionExists collection_id)));
     (is_Exception,
      fun e => emit (log ERROR (CollectionError collection_id e));; sys_exit 1)].

Definition index_known_face (env : Env) (collection_id image_path external_id : string) : M unit :=
  try_except
    (image_bytes ← call (open_rb image_path) (on_open_rb env image_path);
     call (index_faces collection_id image_bytes external_id)
          (on_index_faces env collection_id image_bytes external_id);;
     emit (log INFO (FaceIndexed image_path external_id)))
    [(is_FileNotFoundError,
      fun _ => emit (log ERROR (ImageNotFound image_path));; sys_exit 1);
     (is_Exception,
      fun e => emit (log ERROR (IndexError image_path e)))].

(** The failure of the enrollment, if any: what [open] raises, or else what
    [index_faces] raises on the bytes read. *)
Definition enroll_failure (env : Env) (cid path ext : string) : option exn :=
  match on_open_rb env path with
  | Throw e => Some e
  | Value image_bytes =>
      match on_index_faces env cid image_bytes ext with
      | Throw e => Some e
      | Value _ => None
      end
  end.

(** The calls of the enrollment, up to the one that fails. *)
Definition enroll_calls (env : Env) (cid path ext : string) : list event :=
  match on_open_rb env path with
  | Throw _ => [open_rb path]
  | Value image_bytes => [open_rb path; index_faces cid image_bytes ext]
  end.

(** ** The recognition loop *)

(** What the world answers during one iteration of [while True]. *)
Record Tick : Type := mkTick {
  on_read : outcome (option image);                    (* cap.read(): [None] is ret = False *)
  on_imencode : image -> outcome (option bytes);       (* cv2.imencode: [None] is ret = False *)
  on_search : string -> bytes -> float -> Z -> outcome SearchResponse;
  on_imshow : outcome unit;
  on_waitKey : outcome Z
}.

(** The four overlays, as drawn at lines 121, 125, 128 and 132. *)
Definition match_text (face_id : string) : Text :=
  mkText ("Match: " +:+ face_id) (10, 30)%Z (0, 255, 0)%Z.
Definition low_match_text : Text := mkText "Low Match" (10, 30)%Z (0, 165, 255)%Z.
Definition no_match_text : Text := mkText "No Match" (10, 30)%Z (0, 0, 255)%Z.
Definition search_error_text : Text := mkText "Search Error" (10, 60)%Z (255, 0, 0)%Z.

(** [cv2.putText(frame, ...)]: draws on the frame of the iteration. *)
Definition draw (frame : Frame) (t : Text) : M Frame :=
  emit (putText t);; mret (putText_on frame t).

(** Lines 104-132: the search and the annotation of the frame. *)
Definition search_and_annotate (tk : Tick) (collection_id : string)
    (similarity_threshold : float) (frame : Frame) (image_bytes_frame : bytes) : M Frame :=
  try_except
    (resp ← call (search_faces_by_image collection_id image_bytes_frame similarity_threshold 1)
                 (on_search tk collection_id image_bytes_frame similarity_threshold 1%Z);
     let matches := default [] (FaceMatches resp) in
     match matches with
     | match_ :: _ =>
         let sim := Similarity match_ in
         face_id ← getitem (ExternalImageId (Face match_)) "ExternalImageId";
         emit (log INFO (MatchFound face_id sim));;
         if (similarity_threshold <=? sim)%float
         then draw frame (match_text face_id)
         else emit (log DEBUG (BelowThreshold face_id sim));;
              draw frame low_match_text
     | [] =>
         emit (log DEBUG NoFaces);;
         draw frame no_match_text
     end)
    [(is_Exception,
      fun e =>
        emit (log ERROR (SearchFailed e));;
        draw frame search_error_text)].

(** How one iteration of the loop body ends. *)
Inductive control : Type := Continue | Break.

(** [cv2.imshow]: an answered call puts the window on screen. *)
Definition show (tk : Tick) (frame : Frame) : M unit :=
  call (imshow "Face Recognition" frame) (on_imshow tk);;
  d ← get_state;
  set_state {| cap_opened := cap_opened d; windows := true |}.

(** Lines 93-138: the body of [while True]. *)
Definition iteration (tk : Tick) (collection_id : string) (similarity_threshold : float)
    : M control :=
  r ← call cap_read (on_read tk);
  match r with
  | None => emit (log WARNING GrabFailed);; mret Break
  | Some img =>
      let frame := mkFrame img [] in
      b ← call (imencode ".jpg" img) (on_imencode tk img);
      match b with
      | None => emit (log WARNING EncodeFailed);; mret Continue
      | Some image_bytes_frame =>
          frame ← search_and_annotate tk collection_id similarity_threshold
                    frame image_bytes_frame;
          show tk frame;;
          key ← call (waitKey 1) (on_waitKey tk);
          if (Z.land key 255 =? 113)%Z      (* 0xFF, ord('q') *)
          then emit (log INFO QuitPressed);; mret Break
          else mret Continue
      end
  end.

(** [while True] over the scripted answers of the world. *)
Fixpoint loop (ticks : list Tick) (collection_id : string) (similarity_threshold : float)
    : M unit :=
  match ticks with
  | [] => fun d => ([], Pending, d)
  | tk :: rest =>
      c ← iteration tk collection_id similarity_threshold;
      match c with
      | Break => mret tt
      | Continue => loop rest collection_id similarity_threshold
      end
  end.

(** Lines 139-145: the [finally] block. *)
Definition cleanup : M unit :=
  emit (log INFO Releasing);;
  d ← get_state;
  (if cap_opened d
   then emit cap_release;; set_state {| cap_opened := false; windows := windows d |}
   else mret tt);;
  emit destroyAllWindows;;
  d ← get_state;
  set_state {| cap_opened := cap_opened d; windows := false |};;
  emit (log INFO Released).

Definition run_face_recognition (env : Env) (ticks : list Tick)
    (collection_id : string) (similarity_threshold : float) : M unit :=
  emit (log INFO StartingCapture);;
  emit (VideoCapture 0);;
  d ← get_state;
  set_state {| cap_opened := on_VideoCapture env 0; windows := windows d |};;
  d ← get_state;
  if negb (cap_opened d)
  then emit (log ERROR WebcamNotOpened);; sys_exit 1
  else try_finally (loop ticks collection_id similarity_threshold) cleanup.

Definition main (env : Env) (ticks : list Tick) : M unit :=
  initialize_rekognition env;;
  setup_collection env COLLECTION_ID;;
  index_known_face env COLLECTION_ID KNOWN_FACE_IMAGE KNOWN_FACE_ID;;
  run_face_recognition env ticks COLLECTION_ID SIMILARITY_THRESHOLD;;
  emit (log INFO Finished).

(** The state the process starts from: no capture, no window. *)
Definition boot : Devices := {| cap_opened := false; windows := false |}.

(** Exit status of the process: 0 when [main] returns, the code of an
    uncaught [SystemExit], 1 for any other uncaught exception. *)
Definition exit_status (r : result unit) : option Z :=
  match r with
  | Returns _ => Some 0%Z
  | Raises (SystemExit c) => Some c
  | Raises _ => Some 1%Z
  | Pending => None
  end.

(** ** The decision, as a value

    main.py has no decision type: the decision is the branch of lines 112-132
    that runs.  [decision_of] names that branch; [search_and_annotate_decision] below
    shows that the code logs and draws exactly what the branch prescribes. *)

Inductive Decision : Type :=
| Match (face_id : string) (sim : float)
| LowMatch (face_id : string) (sim : float)
| NoMatch
| SearchError (e : exn).

(** [None]: the search raised something [except Exception] does not catch, and
    no branch runs. *)
Definition decision_of (answer : outcome SearchResponse) (similarity_threshold : float)
    : option Decision :=
  match answer with
  | Throw e => if is_Exception e then Some (SearchError e) else None
  | Value resp =>
      match default [] (FaceMatches resp) with
      | [] => Some NoMatch
      | match_ :: _ =>
          match ExternalImageId (Face match_) with
          | None => Some (SearchError (KeyError "ExternalImageId"))
          | Some face_id =>
              if (similarity_threshold <=? Similarity match_)%float
              then Some (Match face_id (Similarity match_))
              else Some (LowMatch face_id (Similarity match_))
          end
      end
  end.

(** The overlay of a decision. *)
Definition overlay (dec : Decision) : Text :=
  match dec with
  | Match face_id _ => match_text face_id
  | LowMatch _ _ => low_match_text
  | NoMatch => no_match_text
  | SearchError _ => search_error_text
  end.

(** The log records of a decision, in order. *)
Definition records (dec : Decision) : list event :=
  match dec with
  | Match face_id sim => [log INFO (MatchFound face_id sim)]
  | LowMatch face_id sim =>
      [log INFO (MatchFound face_id sim); log DEBUG (BelowThreshold face_id sim)]
  | NoMatch => [log DEBUG NoFaces]
  | SearchError e => [log ERROR (SearchFailed e)]
  end.

(** The variant of a decision, without its payload. *)
Inductive variant : Type := VMatch | VLowMatch | VNoMatch | VSearchError.

Definition variant_of (dec : Decision) : variant :=
  match dec with
  | Match _ _ => VMatch
  | LowMatch _ _ => VLowMatch
  | NoMatch => VNoMatch
  | SearchError _ => VSearchError
  end.

(** A search response with one candidate. *)
Definition one_match (face_id : string) (sim : float) : SearchResponse :=
  {| FaceMatches := Some [ {| Similarity := sim;
                              Face := {| FaceId := "f"; ExternalImageId := Some face_id |} |} ] |}.

(** A response with no candidate, with and without the [FaceMatches] key. *)
Definition no_match : SearchResponse := {| FaceMatches := Some [] |}.
Definition no_key : SearchResponse := {| FaceMatches := None |}.

(** ** The service, for what the program relies on *)

(** CreateCollection on a service that holds the collections [cs]: the
    collection is created, unless one with that id exists. *)
Definition service_create_collection (cs : gset string) (cid : string)
    : outcome CreateCollectionResponse * gset string :=
  if decide (cid ∈ cs)
  then (Throw ResourceAlreadyExistsException, cs)
  else (Value {| CollectionArn := "aws:rekognition:collection/" +:+ cid |}, {[ cid ]} ∪ cs).

(** The binary64 value Python reads the literal 84.99 as. *)
Definition f84_99 : float := 0x1.53f5c28f5c28fp+6%float.

(** ** Scenarios

    Answers of the world used as concrete inputs below. *)

(** A tick on which everything succeeds, with one candidate "jane". *)
Definition tick_jane (sim : float) (key : Z) : Tick :=
  {| on_read := Value (Some []);
     on_imencode := fun _ => Value (Some []);
     on_search := fun _ _ _ _ => Value (one_match "jane" sim);
     on_imshow := Value tt;
     on_waitKey := Value key |}.

(** A tick whose search answers [resp] whatever is asked. *)
Definition tick_answering (resp : SearchResponse) : Tick :=
  {| on_read := Value (Some []);
     on_imencode := fun _ => Value (Some []);
     on_search := fun _ _ _ _ => Value resp;
     on_imshow := Value tt;
     on_waitKey := Value (-1)%Z |}.

(** A service that holds "jane" at similarity 91.5 and applies the filter it
    is asked with. *)
Definition tick_filtering : Tick :=
  {| on_read := Value (Some []);
     on_imencode := fun _ => Value (Some []);
     on_search := fun _ _ t _ =>
       Value (if (t <=? 91.5)%float then one_match "jane" 91.5%float else no_match);
     on_imshow := Value tt;
     on_waitKey := Value (-1)%Z |}.

(** A tick on which the frame is read but does not encode, while the user
    holds 'q' (key code 113). *)
Definition tick_encode_fails : Tick :=
  {| on_read := Value (Some []);
     on_imencode := fun _ => Value None;
     on_search := fun _ _ _ _ => Value (one_match "jane" 91.5%float);
     on_imshow := Value tt;
     on_waitKey := Value 113%Z |}.

(** A tick whose search fails with a service error. *)
Definition tick_search_fails (key : Z) : Tick :=
  {| on_read := Value (Some []);
     on_imencode := fun _ => Value (Some []);
     on_search := fun _ _ _ _ => Throw (Error "ClientError");
     on_imshow := Value tt;
     on_waitKey := Value key |}.

(** A world in which the bootstrap succeeds and the camera opens. *)
Definition env_ok : Env :=
  {| getenv := fun name =>
       if String.eqb name "AWS_REGION" then None else Some "secret";
     on_boto3_client := fun _ => Value tt;
     on_create_collection := fun cid =>
       Value {| CollectionArn := "aws:rekognition:collection/" +:+ cid |};
     on_open_rb := fun _ => Value [];
     on_index_faces := fun _ _ _ => Value tt;
     on_VideoCapture := fun _ => true |}.

(** The same world, on the next start: the collection is there. *)
Definition env_again : Env :=
  {| getenv := getenv env_ok;
     on_boto3_client := on_boto3_client env_ok;
     on_create_collection := fun _ => Throw ResourceAlreadyExistsException;
     on_open_rb := on_open_rb env_ok;
     on_index_faces := on_index_faces env_ok;
     on_VideoCapture := on_VideoCapture env_ok |}.

(** A tick on which the frame read fails. *)
Definition tick_end_of_stream : Tick :=
  {| on_read := Value None;
     on_imencode := fun _ => Value (Some []);
     on_search := fun _ _ _ _ => Value (one_match "jane" 91.5%float);
     on_imshow := Value tt;
     on_waitKey := Value (-1)%Z |}.

(** A tick on which the user interrupts the process during the search. *)
Definition tick_interrupted : Tick :=
  {| on_read := Value (Some []);
     on_imencode := fun _ => Value (Some []);
     on_search := fun _ _ _ _ => Throw KeyboardInterrupt;
     on_imshow := Value tt;
     on_waitKey := Value (-1)%Z |}.

(** The reference image is missing. *)
Definition env_image_missing : Env :=
  {| getenv := getenv env_ok;
     on_boto3_client := on_boto3_client env_ok;
     on_create_collection := on_create_collection env_ok;
     on_open_rb := fun _ => Throw FileNotFoundError;
     on_index_faces := on_index_faces env_ok;
     on_VideoCapture := on_VideoCapture env_ok |}.

(** The reference image is there and cannot be read. *)
Definition env_image_unreadable : Env :=
  {| getenv := getenv env_ok;
     on_boto3_client := on_boto3_client env_ok;
     on_create_collection := on_create_collection env_ok;
     on_open_rb := fun _ => Throw (Error "PermissionError");
     on_index_faces := on_index_faces env_ok;
     on_VideoCapture := on_VideoCapture env_ok |}.

(** The service refuses to index the reference image. *)
Definition env_index_refused : Env :=
  {| getenv := getenv env_ok;
     on_boto3_client := on_boto3_client env_ok;
     on_create_collection := on_create_collection env_ok;
     on_open_rb := on_open_rb env_ok;
     on_index_faces := fun _ _ _ => Throw (Error "InvalidParameterException");
     on_VideoCapture := on_VideoCapture env_ok |}.

(** The credentials are there, the secret key is empty. *)
Definition env_empty_secret : Env :=
  {| getenv := fun name =>
       if String.eqb name "AWS_SECRET_ACCESS_KEY" then Some "" else getenv env_ok name;
     on_boto3_client := on_boto3_client env_ok;
     on_create_collection := on_create_collection env_ok;
     on_open_rb := on_open_rb env_ok;
     on_index_faces := on_index_faces env_ok;
     on_VideoCapture := on_VideoCapture env_ok |}.

(** boto3 cannot build the client. *)
Definition env_client_fails : Env :=
  {| getenv := getenv env_ok;
     on_boto3_client := fun _ => Throw (Error "NoRegionError");
     on_create_collection := on_create_collection env_ok;
     on_open_rb := on_open_rb env_ok;
     on_index_faces := on_index_faces env_ok;
     on_VideoCapture := on_VideoCapture env_ok |}.

(** The service refuses to create the collection. *)
Definition env_collection_denied : Env :=
  {| getenv := getenv env_ok;
     on_boto3_client := on_boto3_client env_ok;
     on_create_collection := fun _ => Throw (Error "AccessDeniedException");
     on_open_rb := on_open_rb env_ok;
     on_index_faces := on_index_faces env_ok;
     on_VideoCapture := on_VideoCapture env_ok |}.

(** The camera does not open. *)
Definition env_no_camera : Env :=
  {| getenv := getenv env_ok;
     on_boto3_client := on_boto3_client env_ok;
     on_create_collection := on_create_collection env_ok;
     on_open_rb := on_open_rb env_ok;
     on_index_faces := on_index_faces env_ok;
     on_VideoCapture := fun _ => false |}.

(** A tick on which the encoder raises instead of answering. *)
Definition tick_encoder_raises : Tick :=
  {| on_read := Value (Some []);
     on_imencode := fun _ => Throw (Error "cv2.error");
     on_search := fun _ _ _ _ => Value (one_match "jane" 91.5%float);
     on_imshow := Value tt;
     on_waitKey := Value (-1)%Z |}.

(** A candidate indexed without an external id. *)
Definition anonymous_match (sim : float) : SearchResponse :=
  {| FaceMatches := Some [ {| Similarity := sim;
                              Face := {| FaceId := "f"; ExternalImageId := None |} |} ] |}.

(** ** Views of a trace and of a script *)

Definition is_enrollment (e : event) : bool :=
  match e with open_rb _ | index_faces _ _ _ => true | _ => false end.
Definition is_create_collection (e : event) : bool :=
  match e with create_collection _ => true | _ => false end.

(** The raw frames shown, in the order of the [imshow] calls. *)
Fixpoint shown (t : list event) : list image :=
  match t with
  | [] => []
  | imshow _ f :: t' => pixels f :: shown t'
  | _ :: t' => shown t'
  end.

(** The raw frames the camera delivers over a script, in order. *)
Fixpoint delivered (ticks : list Tick) : list image :=
  match ticks with
  | [] => []
  | tk :: rest =>
      match on_read tk with
      | Value (Some img) => img :: delivered rest
      | _ => delivered rest
      end
  end.

(** Unfolds the monad of the program. *)
Ltac run := cbv [mbind mret M_bind M_ret bind ret emit call raise sys_exit draw getitem
                 get_state set_state try_except handler_for try_finally show]; cbn.

(** * Properties *)

(** ** Comparison of binary64 numbers

    Python's [a >= b] on floats is IEEE 754 comparison: [b <=? a].  With a NaN
    operand every comparison is false. *)

Lemma compare_cont_Eq_swap (p q : positive) :
  Pos.compare_cont Eq q p = CompOpp (Pos.compare_cont Eq p q).
Proof. symmetry. exact (Pos.compare_cont_antisym p q Eq). Qed.

Lemma SFcompare_Lt_swap (x y : spec_float) :
  SFcompare x y = Some Lt -> SFcompare y x = Some Gt.
Proof.
  destruct x as [sx|sx| |sx mx ex], y as [sy|sy| |sy my ey]; simpl;
    try discriminate; try (destruct sx; discriminate || reflexivity);
    try (destruct sy; discriminate || reflexivity);
    try (destruct sx, sy; discriminate || reflexivity).
  rewrite (Z.compare_antisym ex ey), (compare_cont_Eq_swap mx my).
  destruct sx, sy; try discriminate; try reflexivity;
    destruct (ex ?= ey)%Z; simpl; try discriminate; try reflexivity;
    destruct (Pos.compare_cont Eq mx my); simpl; discriminate || reflexivity.
Qed.

(** Strictly below excludes at-or-above. *)
Lemma float_ltb_not_leb (x y : float) :
  (x <? y)%float = true -> (y <=? x)%float = false.
Proof.
  rewrite ltb_spec, leb_spec. unfold SFltb, SFleb.
  destruct (SFcompare (Prim2SF x) (Prim2SF y)) as [[ | | ]|] eqn:E; try discriminate.
  intros _. now rewrite (SFcompare_Lt_swap _ _ E).
Qed.

(** ** The code runs the branch [decision_of] names *)

Lemma search_and_annotate_decision tk cid th frame buf d :
  search_and_annotate tk cid th frame buf d =
  let ev := search_faces_by_image cid buf th 1 in
  match decision_of (on_search tk cid buf th 1%Z) th with
  | Some dec =>
      (ev :: records dec ++ [putText (overlay dec)],
       Returns (putText_on frame (overlay dec)), d)
  | None =>
      ([ev],
       match on_search tk cid buf th 1%Z with
       | Throw e => Raises e
       | Value _ => Pending
       end, d)
  end.
Proof.
  unfold search_and_annotate, decision_of. run.
  destruct (on_search tk cid buf th 1%Z) as [resp|e]; cbn.
  - destruct (FaceMatches resp) as [[|m rest]|]; cbn; try reflexivity.
    destruct (ExternalImageId (Face m)) as [face_id|]; cbn; try reflexivity.
    destruct (th <=? Similarity m)%float; reflexivity.
  - destruct (is_Exception e); reflexivity.
Qed.

(** ** C1: the threshold is a closed lower bound *)

(** C1.  A search that returns a candidate [m] with an external id decides
    [Match] when [Similarity m >= threshold] and [LowMatch] when
    [Similarity m < threshold]; the code logs and draws the matching overlay.
    (At threshold 85.0 the similarities 85.0 and 84.99: see the witness.) *)
Theorem threshold_closed_lower_bound
    tk cid th frame buf d resp m rest face_id
    (Hsearch : on_search tk cid buf th 1%Z = Value resp)
    (Hmatches : FaceMatches resp = Some (m :: rest))
    (Hid : ExternalImageId (Face m) = Some face_id) :
  ((th <=? Similarity m)%float = true ->
     decision_of (Value resp) th = Some (Match face_id (Similarity m)) /\
     search_and_annotate tk cid th frame buf d =
       ([search_faces_by_image cid buf th 1;
         log INFO (MatchFound face_id (Similarity m));
         putText (match_text face_id)],
        Returns (putText_on frame (match_text face_id)), d)) /\
  ((Similarity m <? th)%float = true ->
     decision_of (Value resp) th = Some (LowMatch face_id (Similarity m)) /\
     search_and_annotate tk cid th frame buf d =
       ([search_faces_by_image cid buf th 1;
         log INFO (MatchFound face_id (Similarity m));
         log DEBUG (BelowThreshold face_id (Similarity m));
         putText low_match_text],
        Returns (putText_on frame low_match_text), d)).
Proof.
  assert (Hdec : forall b, (th <=? Similarity m)%float = b ->
            decision_of (Value resp) th =
            Some (if b then Match face_id (Similarity m)
                  else LowMatch face_id (Similarity m))).
  { intros b Hb. unfold decision_of. rewrite Hmatches. cbn. rewrite Hid, Hb.
    destruct b; reflexivity. }
  split; intros Hcmp.
  - specialize (Hdec true Hcmp). split; [exact Hdec|].
    rewrite search_and_annotate_decision, Hsearch. cbv zeta. rewrite Hdec. reflexivity.
  - apply float_ltb_not_leb in Hcmp. specialize (Hdec false Hcmp). split; [exact Hdec|].
    rewrite search_and_annotate_decision, Hsearch. cbv zeta. rewrite Hdec. reflexivity.
Qed.

Lemma threshold_closed_lower_bound_witness :
  decision_of (Value (one_match "jane" 85.0%float)) SIMILARITY_THRESHOLD
    = Some (Match "jane" 85.0%float) /\
  decision_of (Value (one_match "jane" f84_99)) SIMILARITY_THRESHOLD
    = Some (LowMatch "jane" f84_99).
Proof.
  split.
  - refine (proj1 (proj1 (threshold_closed_lower_bound
              (tick_jane 85.0%float (-1)) COLLECTION_ID SIMILARITY_THRESHOLD
              (mkFrame [] []) [] boot (one_match "jane" 85.0%float) _ _ "jane"
              eq_refl eq_refl eq_refl) _)).
    vm_compute. reflexivity.
  - refine (proj1 (proj2 (threshold_closed_lower_bound
              (tick_jane f84_99 (-1)) COLLECTION_ID SIMILARITY_THRESHOLD
              (mkFrame [] []) [] boot (one_match "jane" f84_99) _ _ "jane"
              eq_refl eq_refl eq_refl) _)).
    vm_compute. reflexivity.
Defined.

(** ** The loop body, case by case *)

(** One iteration, as the table of its outcomes. *)
Lemma iteration_eq tk cid th d :
  iteration tk cid th d =
  match on_read tk with
  | Throw e => ([cap_read], Raises e, d)
  | Value None => ([cap_read; log WARNING GrabFailed], Returns Break, d)
  | Value (Some img) =>
      match on_imencode tk img with
      | Throw e => ([cap_read; imencode ".jpg" img], Raises e, d)
      | Value None =>
          ([cap_read; imencode ".jpg" img; log WARNING EncodeFailed], Returns Continue, d)
      | Value (Some buf) =>
          let pre := [cap_read; imencode ".jpg" img; search_faces_by_image cid buf th 1] in
          match decision_of (on_search tk cid buf th 1%Z) th with
          | None =>
              (pre,
               match on_search tk cid buf th 1%Z with
               | Throw e => Raises e
               | Value _ => Pending
               end, d)
          | Some dec =>
              let t := pre ++ records dec ++
                       [putText (overlay dec);
                        imshow "Face Recognition" (mkFrame img [overlay dec])] in
              let d1 := {| cap_opened := cap_opened d; windows := true |} in
              match on_imshow tk with
              | Throw e => (t, Raises e, d)
              | Value _ =>
                  match on_waitKey tk with
                  | Throw e => (t ++ [waitKey 1], Raises e, d1)
                  | Value key =>
                      if (Z.land key 255 =? 113)%Z
                      then (t ++ [waitKey 1; log INFO QuitPressed], Returns Break, d1)
                      else (t ++ [waitKey 1], Returns Continue, d1)
                  end
              end
          end
      end
  end.
Proof.
  unfold iteration.
  cbv [mbind mret M_bind M_ret bind ret emit call show get_state set_state].
  destruct (on_read tk) as [[img|]|e]; try reflexivity.
  destruct (on_imencode tk img) as [[buf|]|e]; try reflexivity.
  rewrite search_and_annotate_decision. cbv zeta.
  destruct (decision_of (on_search tk cid buf th 1%Z) th) as [dec|];
    [|destruct (on_search tk cid buf th 1%Z); reflexivity].
  destruct (on_imshow tk) as [[]|e]; cbn [app].
  - destruct (on_waitKey tk) as [key|e]; cbn [app].
    + destruct (Z.land key 255 =? 113)%Z; cbn [app];
        rewrite <- ?app_assoc; cbn [app]; rewrite <- ?app_assoc; reflexivity.
    + rewrite <- ?app_assoc; cbn [app]; rewrite <- ?app_assoc; reflexivity.
  - rewrite <- ?app_assoc; reflexivity.
Qed.

(** ** The loop, iteration after iteration *)

Lemma loop_cons tk rest cid th d :
  loop (tk :: rest) cid th d =
  match iteration tk cid th d with
  | (t, Returns Continue, d1) =>
      match loop rest cid th d1 with
      | (t2, r, d2) => (t ++ t2, r, d2)
      end
  | (t, Returns Break, d1) => (t, Returns tt, d1)
  | (t, Raises e, d1) => (t, Raises e, d1)
  | (t, Pending, d1) => (t, Pending, d1)
  end.
Proof.
  cbn [loop]. cbv [mbind mret M_bind M_ret bind ret].
  destruct (iteration tk cid th d) as [[t [[]|e|]] d1]; try reflexivity.
  now rewrite app_nil_r.
Qed.

Lemma count_app p (t1 t2 : list event) :
  count p (t1 ++ t2) = count p t1 + count p t2.
Proof. unfold count. now rewrite List.filter_app, length_app. Qed.

(** An iteration neither releases the camera nor destroys the windows, it
    leaves [cap.isOpened()] as it was, and what it does and how it ends do not
    depend on the state of the devices. *)
Lemma iteration_frame tk cid th d :
  exists t r w,
    iteration tk cid th d = (t, r, {| cap_opened := cap_opened d; windows := w |}) /\
    count is_cap_release t = 0 /\
    count is_destroyAllWindows t = 0 /\
    count is_VideoCapture t = 0 /\
    forall d', (iteration tk cid th d').1 = (t, r).
Proof.
  assert (Hrec : forall dec, count is_cap_release (records dec) = 0 /\
                             count is_destroyAllWindows (records dec) = 0 /\
                             count is_VideoCapture (records dec) = 0)
    by (intros []; repeat split; reflexivity).
  destruct d as [c w0].
  setoid_rewrite iteration_eq.
  destruct (on_read tk) as [[img|]|e];
    [|by (eexists _, _, w0; repeat split)..].
  destruct (on_imencode tk img) as [[buf|]|e];
    [|by (eexists _, _, w0; repeat split)..].
  cbv zeta.
  destruct (decision_of (on_search tk cid buf th 1%Z) th) as [dec|];
    [|by (eexists _, _, w0; repeat split)].
  destruct (Hrec dec) as (R1 & R2 & R3).
  destruct (on_imshow tk) as [[]|e].
  - destruct (on_waitKey tk) as [key|e]; [destruct (Z.land key 255 =? 113)%Z|];
      (eexists _, _, true; split; [reflexivity|]);
      rewrite !count_app, ?R1, ?R2, ?R3; repeat split; reflexivity.
  - eexists _, _, w0; split; [reflexivity|].
    rewrite !count_app, ?R1, ?R2, ?R3; repeat split; reflexivity.
Qed.

(** The same for the whole loop. *)
Lemma loop_frame ticks cid th : forall d,
  exists t r w,
    loop ticks cid th d = (t, r, {| cap_opened := cap_opened d; windows := w |}) /\
    count is_cap_release t = 0 /\
    count is_destroyAllWindows t = 0 /\
    count is_VideoCapture t = 0 /\
    forall d', (loop ticks cid th d').1 = (t, r).
Proof.
  induction ticks as [|tk rest IH]; intros d.
  - destruct d as [c w]. by eexists [], Pending, w.
  - destruct (iteration_frame tk cid th d) as (t & r & w & Hit & H1 & H2 & H3 & Hind).
    assert (Hit' : forall d', exists w', iteration tk cid th d' =
                     (t, r, {| cap_opened := cap_opened d'; windows := w' |})).
    { intros d'. destruct (iteration_frame tk cid th d')
        as (t' & r' & w' & Hit' & _ & _ & _ & Hind').
      exists w'. rewrite Hit'. specialize (Hind d'). rewrite Hit' in Hind.
      cbn in Hind. now inversion Hind. }
    destruct r as [[]|e|].
    + destruct (IH {| cap_opened := cap_opened d; windows := w |})
        as (t2 & r2 & w2 & Hl & L1 & L2 & L3 & Lind).
      exists (t ++ t2), r2, w2.
      rewrite loop_cons, Hit, Hl, !count_app, H1, H2, H3, L1, L2, L3.
      repeat split; try reflexivity.
      intros d'. destruct (Hit' d') as [w' E]. rewrite loop_cons, E.
      specialize (Lind {| cap_opened := cap_opened d'; windows := w' |}).
      destruct (loop rest cid th {| cap_opened := cap_opened d'; windows := w' |})
        as [[t3 r3] d3].
      cbn in Lind. now inversion Lind.
    + exists t, (Returns tt), w. rewrite loop_cons, Hit. repeat split; try assumption.
      intros d'. destruct (Hit' d') as [w' E]. now rewrite loop_cons, E.
    + exists t, (Raises e), w. rewrite loop_cons, Hit. repeat split; try assumption.
      intros d'. destruct (Hit' d') as [w' E]. now rewrite loop_cons, E.
    + exists t, Pending, w. rewrite loop_cons, Hit. repeat split; try assumption.
      intros d'. destruct (Hit' d') as [w' E]. now rewrite loop_cons, E.
Qed.

(** An iteration ends: it returns or raises. *)
Lemma iteration_not_pending tk cid th d t d1 :
  iteration tk cid th d <> (t, Pending, d1).
Proof.
  rewrite iteration_eq.
  destruct (on_read tk) as [[img|]|e]; try discriminate.
  destruct (on_imencode tk img) as [[buf|]|e]; try discriminate.
  cbv zeta. unfold decision_of.
  destruct (on_search tk cid buf th 1%Z) as [resp|e].
  - destruct (default [] (FaceMatches resp)) as [|m rest];
      [|destruct (ExternalImageId (Face m)); [destruct (th <=? Similarity m)%float|]];
      (destruct (on_imshow tk) as [[]|?]; [|discriminate];
       destruct (on_waitKey tk) as [key|?]; [|discriminate];
       destruct (Z.land key 255 =? 113)%Z; discriminate).
  - destruct (is_Exception e); [|discriminate].
    destruct (on_imshow tk) as [[]|?]; [|discriminate].
    destruct (on_waitKey tk) as [key|?]; [|discriminate].
    destruct (Z.land key 255 =? 113)%Z; discriminate.
Qed.

(** A loop that is still running after the answers [pre] goes on with the
    answers that follow. *)
Lemma loop_app pre rest cid th : forall d t d1,
  loop pre cid th d = (t, Pending, d1) ->
  loop (pre ++ rest) cid th d =
  match loop rest cid th d1 with
  | (t2, r, d2) => (t ++ t2, r, d2)
  end.
Proof.
  induction pre as [|tk pre IH]; intros d t d1 H.
  - cbn in H. inversion H; subst. cbn [app]. now destruct (loop rest cid th d1) as [[? ?] ?].
  - rewrite <- app_comm_cons. rewrite loop_cons in *.
    destruct (iteration tk cid th d) as [[t0 [[]|e|]] d0] eqn:Hit; try discriminate.
    + destruct (loop pre cid th d0) as [[t2 r2] d2] eqn:E.
      inversion H; subst. rewrite (IH _ _ _ E).
      destruct (loop rest cid th d1) as [[t3 r3] d3]. now rewrite app_assoc.
    + now apply iteration_not_pending in Hit.
Qed.

(** ** C8: no candidate, no match *)

(** C8.  A search that returns no candidate (an empty [FaceMatches], or none at
    all) decides [NoMatch] whatever the threshold, and the code draws the
    "No Match" overlay. *)
Theorem no_candidates_no_match tk cid th frame buf d resp
    (Hsearch : on_search tk cid buf th 1%Z = Value resp)
    (Hempty : default [] (FaceMatches resp) = []) :
  decision_of (Value resp) th = Some NoMatch /\
  search_and_annotate tk cid th frame buf d =
    ([search_faces_by_image cid buf th 1; log DEBUG NoFaces; putText no_match_text],
     Returns (putText_on frame no_match_text), d).
Proof.
  assert (Hdec : decision_of (Value resp) th = Some NoMatch)
    by (unfold decision_of; now rewrite Hempty).
  split; [exact Hdec|].
  rewrite search_and_annotate_decision, Hsearch. cbv zeta. now rewrite Hdec.
Qed.

Lemma no_candidates_no_match_witness :
  decision_of (Value no_match) 85.0%float = Some NoMatch /\
  decision_of (Value no_match) 0%float = Some NoMatch /\
  decision_of (Value no_key) nan = Some NoMatch.
Proof.
  split; [|split].
  - exact (proj1 (no_candidates_no_match (tick_answering no_match) COLLECTION_ID
                    85.0%float (mkFrame [] []) [] boot no_match eq_refl eq_refl)).
  - exact (proj1 (no_candidates_no_match (tick_answering no_match) COLLECTION_ID
                    0%float (mkFrame [] []) [] boot no_match eq_refl eq_refl)).
  - exact (proj1 (no_candidates_no_match (tick_answering no_key) COLLECTION_ID
                    nan (mkFrame [] []) [] boot no_key eq_refl eq_refl)).
Defined.

(** ** C10: under the service's filter, the low-match branch is dead *)

(** C10.  The code passes one threshold both as [FaceMatchThreshold] of the
    request and to its own comparison.  If the service honours its filter
    (every candidate it returns is at or above the [FaceMatchThreshold] it was
    asked with), no iteration decides [LowMatch] or draws "Low Match", and a
    candidate with an external id is always a [Match]. *)
Theorem low_match_unreachable tk cid th frame buf d
    (Hfilter : forall c img t n resp m,
        on_search tk c img t n = Value resp ->
        In m (default [] (FaceMatches resp)) ->
        (t <=? Similarity m)%float = true) :
  (forall face_id sim,
      decision_of (on_search tk cid buf th 1%Z) th <> Some (LowMatch face_id sim)) /\
  ~ In (putText low_match_text) (search_and_annotate tk cid th frame buf d).1.1 /\
  (forall resp m rest face_id,
      on_search tk cid buf th 1%Z = Value resp ->
      FaceMatches resp = Some (m :: rest) ->
      ExternalImageId (Face m) = Some face_id ->
      decision_of (on_search tk cid buf th 1%Z) th = Some (Match face_id (Similarity m))).
Proof.
  assert (Hdec : forall dec, decision_of (on_search tk cid buf th 1%Z) th = Some dec ->
                   variant_of dec <> VLowMatch).
  { intros dec. unfold decision_of.
    destruct (on_search tk cid buf th 1%Z) as [resp|e] eqn:Hs.
    - destruct (default [] (FaceMatches resp)) as [|m rest] eqn:Hm.
      + intros [= <-]. discriminate.
      + destruct (ExternalImageId (Face m)); [|intros [= <-]; discriminate].
        rewrite (Hfilter _ _ _ _ resp m Hs) by (rewrite Hm; now left).
        intros [= <-]. discriminate.
    - destruct (is_Exception e); intros [= <-]. discriminate. }
  split; [|split].
  - intros face_id sim H. now apply Hdec in H.
  - rewrite search_and_annotate_decision. cbv zeta.
    destruct (decision_of (on_search tk cid buf th 1%Z) th) as [dec|] eqn:E.
    + specialize (Hdec dec eq_refl). cbn.
      destruct dec; cbn; try (exfalso; now apply Hdec);
        intros H; repeat (destruct H as [H|H]; [discriminate H|]); exact H.
    + cbn. intros [H|[]]. discriminate H.
  - intros resp m rest face_id Hs Hm Hid. rewrite Hs. unfold decision_of.
    rewrite Hm. cbn. rewrite Hid.
    rewrite (Hfilter _ _ _ _ resp m Hs) by (rewrite Hm; now left). reflexivity.
Qed.

Lemma tick_filtering_honours_filter c img t n resp m :
  on_search tick_filtering c img t n = Value resp ->
  In m (default [] (FaceMatches resp)) ->
  (t <=? Similarity m)%float = true.
Proof.
  cbn. intros [= <-]. destruct (t <=? 91.5)%float eqn:E; cbn.
  - intros [<-|[]]. exact E.
  - intros [].
Qed.

Lemma low_match_unreachable_witness :
  decision_of (on_search tick_filtering COLLECTION_ID [] SIMILARITY_THRESHOLD 1%Z)
    SIMILARITY_THRESHOLD = Some (Match "jane" 91.5%float).
Proof.
  exact (proj2 (proj2 (low_match_unreachable tick_filtering COLLECTION_ID
                         SIMILARITY_THRESHOLD (mkFrame [] []) [] boot
                         tick_filtering_honours_filter))
               (one_match "jane" 91.5%float) _ [] "jane" eq_refl eq_refl eq_refl).
Defined.

(** ** C3: an iteration whose frame fails to encode *)

(** C3, as the code has it.  When the frame fails to encode, [continue] ends
    the iteration at once: no search, no annotation, no render and no
    [waitKey] poll; the loop goes on with the next iteration. *)
Theorem encode_failure_skips_iteration tk rest cid th d img
    (Hread : on_read tk = Value (Some img))
    (Hencode : on_imencode tk img = Value None) :
  let t := [cap_read; imencode ".jpg" img; log WARNING EncodeFailed] in
  iteration tk cid th d = (t, Returns Continue, d) /\
  count is_search t = 0 /\
  count is_putText t = 0 /\
  count is_imshow t = 0 /\
  count is_waitKey t = 0 /\
  loop (tk :: rest) cid th d =
    match loop rest cid th d with
    | (t2, r, d2) => (t ++ t2, r, d2)
    end.
Proof.
  intros t.
  assert (Hit : iteration tk cid th d = (t, Returns Continue, d))
    by (now rewrite iteration_eq, Hread, Hencode).
  split; [exact Hit|]. do 4 (split; [reflexivity|]).
  now rewrite loop_cons, Hit.
Qed.

Lemma encode_failure_skips_iteration_witness :
  iteration tick_encode_fails COLLECTION_ID SIMILARITY_THRESHOLD boot =
    ([cap_read; imencode ".jpg" []; log WARNING EncodeFailed], Returns Continue, boot).
Proof.
  exact (proj1 (encode_failure_skips_iteration tick_encode_fails [] COLLECTION_ID
                  SIMILARITY_THRESHOLD boot [] eq_refl eq_refl)).
Defined.

(** C3, as the claim has it, fails: on an encode failure the cancellation
    check of that iteration is skipped.  The user holds 'q' during two
    iterations that fail to encode; the key is never polled and the loop is
    still running. *)
Lemma encode_failure_skips_cancellation_check :
  on_waitKey tick_encode_fails = Value 113%Z /\
  count is_waitKey
    (loop [tick_encode_fails; tick_encode_fails] COLLECTION_ID SIMILARITY_THRESHOLD boot).1.1
    = 0 /\
  (loop [tick_encode_fails; tick_encode_fails] COLLECTION_ID SIMILARITY_THRESHOLD boot).1.2
    = Pending.
Proof. split; [|split]; vm_compute; reflexivity. Qed.

(** ** C4: what is rendered *)

(** The four overlays are told apart by their colour. *)
Lemma overlay_distinct d1 d2 :
  variant_of d1 <> variant_of d2 -> overlay d1 <> overlay d2.
Proof. destruct d1, d2; cbn; intros H E; try (now apply H); discriminate E. Qed.

Lemma records_no_imshow dec : List.filter is_imshow (records dec) = [].
Proof. now destruct dec. Qed.

Lemma records_no_putText dec : List.filter is_putText (records dec) = [].
Proof. now destruct dec. Qed.

(** C4, as the code has it.  A frame that is read and encoded, and whose
    search returns or raises an [Exception], is shown once, with exactly one
    overlay: the one of its decision; overlays of different variants differ.
    (A frame that fails to encode is not shown: see the counterexample.) *)
Theorem encoded_frame_rendered_with_one_overlay tk cid th d img buf
    (Hread : on_read tk = Value (Some img))
    (Hencode : on_imencode tk img = Value (Some buf))
    (Hcaught : forall e, on_search tk cid buf th 1%Z = Throw e -> is_Exception e = true) :
  exists dec,
    decision_of (on_search tk cid buf th 1%Z) th = Some dec /\
    List.filter is_putText (iteration tk cid th d).1.1 = [putText (overlay dec)] /\
    List.filter is_imshow (iteration tk cid th d).1.1 =
      [imshow "Face Recognition" (mkFrame img [overlay dec])] /\
    forall dec', variant_of dec' <> variant_of dec -> overlay dec' <> overlay dec.
Proof.
  assert (Hsome : exists dec, decision_of (on_search tk cid buf th 1%Z) th = Some dec).
  { unfold decision_of. destruct (on_search tk cid buf th 1%Z) as [resp|e].
    - destruct (default [] (FaceMatches resp)) as [|m rest]; [by eexists|].
      destruct (ExternalImageId (Face m)); [|by eexists].
      destruct (th <=? Similarity m)%float; by eexists.
    - rewrite (Hcaught e eq_refl). by eexists. }
  destruct Hsome as [dec Hdec]. exists dec. split; [exact Hdec|].
  rewrite iteration_eq, Hread, Hencode. cbv zeta. rewrite Hdec.
  assert (Hp : forall l,
    List.filter is_putText
      (([cap_read; imencode ".jpg" img; search_faces_by_image cid buf th 1] ++
        records dec ++
        [putText (overlay dec); imshow "Face Recognition" (mkFrame img [overlay dec])])
       ++ l) = putText (overlay dec) :: List.filter is_putText l).
  { intros l. rewrite !List.filter_app, records_no_putText. reflexivity. }
  assert (Hs : forall l,
    List.filter is_imshow
      (([cap_read; imencode ".jpg" img; search_faces_by_image cid buf th 1] ++
        records dec ++
        [putText (overlay dec); imshow "Face Recognition" (mkFrame img [overlay dec])])
       ++ l) = imshow "Face Recognition" (mkFrame img [overlay dec])
               :: List.filter is_imshow l).
  { intros l. rewrite !List.filter_app, records_no_imshow. reflexivity. }
  split; [|split].
  - destruct (on_imshow tk) as [[]|?]; [destruct (on_waitKey tk) as [key|?];
      [destruct (Z.land key 255 =? 113)%Z|]|]; cbn [fst snd];
      rewrite ?Hp; try reflexivity.
    rewrite <- (app_nil_r (_ ++ _ ++ _)), Hp. reflexivity.
  - destruct (on_imshow tk) as [[]|?]; [destruct (on_waitKey tk) as [key|?];
      [destruct (Z.land key 255 =? 113)%Z|]|]; cbn [fst snd];
      rewrite ?Hs; try reflexivity.
    rewrite <- (app_nil_r (_ ++ _ ++ _)), Hs. reflexivity.
  - intros dec'. apply overlay_distinct.
Qed.

Lemma encoded_frame_rendered_with_one_overlay_witness :
  exists dec,
    decision_of (on_search (tick_search_fails (-1)) COLLECTION_ID [] SIMILARITY_THRESHOLD 1%Z)
      SIMILARITY_THRESHOLD = Some dec /\
    List.filter is_putText
      (iteration (tick_search_fails (-1)) COLLECTION_ID SIMILARITY_THRESHOLD boot).1.1
      = [putText (overlay dec)] /\
    List.filter is_imshow
      (iteration (tick_search_fails (-1)) COLLECTION_ID SIMILARITY_THRESHOLD boot).1.1
      = [imshow "Face Recognition" (mkFrame [] [overlay dec])] /\
    forall dec', variant_of dec' <> variant_of dec -> overlay dec' <> overlay dec.
Proof.
  refine (encoded_frame_rendered_with_one_overlay (tick_search_fails (-1)) COLLECTION_ID
            SIMILARITY_THRESHOLD boot [] [] eq_refl eq_refl _).
  intros e H. injection H as <-. reflexivity.
Defined.

(** C4, as the claim has it, fails: a frame is acquired and nothing is shown.
    After one rendered frame, the next frame fails to encode: two frames read,
    one [imshow]; the window still shows the first frame. *)
Lemma encode_failure_frame_not_rendered :
  on_read tick_encode_fails = Value (Some []) /\
  count is_imshow
    (iteration tick_encode_fails COLLECTION_ID SIMILARITY_THRESHOLD boot).1.1 = 0 /\
  count is_cap_read
    (loop [tick_jane 91.5%float (-1); tick_encode_fails]
          COLLECTION_ID SIMILARITY_THRESHOLD boot).1.1 = 2 /\
  List.filter is_imshow
    (loop [tick_jane 91.5%float (-1); tick_encode_fails]
          COLLECTION_ID SIMILARITY_THRESHOLD boot).1.1
    = [imshow "Face Recognition" (mkFrame [] [match_text "jane"])].
Proof. split; [|split; [|split]]; vm_compute; reflexivity. Qed.

(** ** C5: a failed search stays in its iteration *)

(** What the loop does and how it ends do not depend on the devices it starts
    from. *)
Lemma loop_any_state ticks cid th d d' :
  (loop ticks cid th d).1 = (loop ticks cid th d').1.
Proof.
  destruct (loop_frame ticks cid th d) as (t & r & w & _ & _ & _ & _ & H).
  now rewrite (H d), (H d').
Qed.

(** C5.  When the search call raises an [Exception], the decision of that
    frame is [SearchError]; the error is logged, the frame is drawn with
    "Search Error" and shown; the search is called once in the iteration (no
    retry); and, the user not quitting, the loop goes on with the following
    iterations exactly as it would have run them on their own. *)
Theorem search_failure_contained tk rest cid th d img buf e key
    (Hread : on_read tk = Value (Some img))
    (Hencode : on_imencode tk img = Value (Some buf))
    (Hfail : on_search tk cid buf th 1%Z = Throw e)
    (Hexc : is_Exception e = true)
    (Hshow : on_imshow tk = Value tt)
    (Hkey : on_waitKey tk = Value key)
    (Hnoquit : (Z.land key 255 =? 113)%Z = false) :
  let t := [cap_read; imencode ".jpg" img; search_faces_by_image cid buf th 1;
            log ERROR (SearchFailed e); putText search_error_text;
            imshow "Face Recognition" (mkFrame img [search_error_text]);
            waitKey 1] in
  decision_of (on_search tk cid buf th 1%Z) th = Some (SearchError e) /\
  (iteration tk cid th d).1 = (t, Returns Continue) /\
  count is_search t = 1 /\
  (loop (tk :: rest) cid th d).1 =
    (t ++ (loop rest cid th d).1.1, (loop rest cid th d).1.2).
Proof.
  intros t.
  assert (Hdec : decision_of (on_search tk cid buf th 1%Z) th = Some (SearchError e))
    by (rewrite Hfail; cbn; now rewrite Hexc).
  assert (Hit : iteration tk cid th d =
                (t, Returns Continue, {| cap_opened := cap_opened d; windows := true |})).
  { rewrite iteration_eq, Hread, Hencode. cbv zeta.
    rewrite Hdec, Hshow, Hkey, Hnoquit. reflexivity. }
  split; [exact Hdec|]. split; [now rewrite Hit|]. split; [reflexivity|].
  rewrite loop_cons, Hit.
  rewrite (surjective_pairing (loop rest cid th d).1).
  rewrite (loop_any_state rest cid th d {| cap_opened := cap_opened d; windows := true |}).
  destruct (loop rest cid th _) as [[t2 r2] d2]. reflexivity.
Qed.

Lemma search_failure_contained_witness :
  (loop [tick_search_fails (-1); tick_jane 91.5%float 113]
        COLLECTION_ID SIMILARITY_THRESHOLD boot).1 =
  ([cap_read; imencode ".jpg" [];
    search_faces_by_image COLLECTION_ID [] SIMILARITY_THRESHOLD 1;
    log ERROR (SearchFailed (Error "ClientError")); putText search_error_text;
    imshow "Face Recognition" (mkFrame [] [search_error_text]); waitKey 1]
   ++ (loop [tick_jane 91.5%float 113] COLLECTION_ID SIMILARITY_THRESHOLD boot).1.1,
   (loop [tick_jane 91.5%float 113] COLLECTION_ID SIMILARITY_THRESHOLD boot).1.2).
Proof.
  exact (proj2 (proj2 (proj2 (search_failure_contained (tick_search_fails (-1))
           [tick_jane 91.5%float 113] COLLECTION_ID SIMILARITY_THRESHOLD boot [] []
           (Error "ClientError") (-1)%Z eq_refl eq_refl eq_refl eq_refl eq_refl eq_refl
           eq_refl)))).
Defined.

(** ** The bootstrap, case by case *)

Lemma setup_collection_eq env cid d :
  setup_collection env cid d =
  match on_create_collection env cid with
  | Value response =>
      ([create_collection cid; log INFO (CollectionCreated cid (CollectionArn response))],
       Returns tt, d)
  | Throw e =>
      if is_ResourceAlreadyExists e
      then ([create_collection cid; log INFO (CollectionExists cid)], Returns tt, d)
      else if is_Exception e
      then ([create_collection cid; log ERROR (CollectionError cid e)],
            Raises (SystemExit 1), d)
      else ([create_collection cid], Raises e, d)
  end.
Proof.
  unfold setup_collection. run.
  destruct (on_create_collection env cid) as [response|e]; [reflexivity|].
  destruct e; reflexivity.
Qed.

Lemma index_known_face_eq env cid path ext d :
  index_known_face env cid path ext d =
  match enroll_failure env cid path ext with
  | None =>
      (enroll_calls env cid path ext ++ [log INFO (FaceIndexed path ext)], Returns tt, d)
  | Some e =>
      if is_FileNotFoundError e
      then (enroll_calls env cid path ext ++ [log ERROR (ImageNotFound path)],
            Raises (SystemExit 1), d)
      else if is_Exception e
      then (enroll_calls env cid path ext ++ [log ERROR (IndexError path e)],
            Returns tt, d)
      else (enroll_calls env cid path ext, Raises e, d)
  end.
Proof.
  unfold index_known_face, enroll_failure, enroll_calls. run.
  destruct (on_open_rb env path) as [image_bytes|e]; cbn.
  - destruct (on_index_faces env cid image_bytes ext) as [[]|e]; cbn; [reflexivity|].
    destruct e; reflexivity.
  - destruct e; reflexivity.
Qed.

(** The bootstrap steps do not touch the devices, and do the same from any
    state. *)
Lemma initialize_rekognition_stateless env :
  exists t r, forall d, initialize_rekognition env d = (t, r, d).
Proof.
  unfold initialize_rekognition.
  destruct (negb (truthy (getenv env "AWS_ACCESS_KEY_ID"))
            || negb (truthy (getenv env "AWS_SECRET_ACCESS_KEY"))).
  - by eexists _, _.
  - run. destruct (on_boto3_client env (REGION_NAME env)) as [[]|e]; cbn.
    + by eexists _, _.
    + destruct (is_Exception e); by eexists _, _.
Qed.

Lemma setup_collection_stateless env cid :
  exists t r, forall d, setup_collection env cid d = (t, r, d).
Proof.
  setoid_rewrite setup_collection_eq.
  destruct (on_create_collection env cid) as [response|e]; [by eexists _, _|].
  destruct (is_ResourceAlreadyExists e); [by eexists _, _|].
  destruct (is_Exception e); by eexists _, _.
Qed.

Lemma index_known_face_stateless env cid path ext :
  exists t r, forall d, index_known_face env cid path ext d = (t, r, d).
Proof.
  setoid_rewrite index_known_face_eq.
  destruct (enroll_failure env cid path ext) as [e|]; [|by eexists _, _].
  destruct (is_FileNotFoundError e); [by eexists _, _|].
  destruct (is_Exception e); by eexists _, _.
Qed.

(** [main], once the client is there and the collection is set up. *)
Lemma main_eq env ticks :
  (initialize_rekognition env boot).1.2 = Returns tt ->
  (setup_collection env COLLECTION_ID boot).1.2 = Returns tt ->
  main env ticks boot =
  let t0 := (initialize_rekognition env boot).1.1 ++
            (setup_collection env COLLECTION_ID boot).1.1 in
  match index_known_face env COLLECTION_ID KNOWN_FACE_IMAGE KNOWN_FACE_ID boot with
  | (t1, Returns _, _) =>
      match run_face_recognition env ticks COLLECTION_ID SIMILARITY_THRESHOLD boot with
      | (t2, Returns _, d) => (t0 ++ t1 ++ t2 ++ [log INFO Finished], Returns tt, d)
      | (t2, Raises e, d) => (t0 ++ t1 ++ t2, Raises e, d)
      | (t2, Pending, d) => (t0 ++ t1 ++ t2, Pending, d)
      end
  | (t1, Raises e, _) => (t0 ++ t1, Raises e, boot)
  | (t1, Pending, _) => (t0 ++ t1, Pending, boot)
  end.
Proof.
  destruct (initialize_rekognition_stateless env) as (ti & ri & Hi).
  destruct (setup_collection_stateless env COLLECTION_ID) as (ts & rs & Hs).
  destruct (index_known_face_stateless env COLLECTION_ID KNOWN_FACE_IMAGE KNOWN_FACE_ID)
    as (tx & rx & Hx).
  rewrite Hi, Hs, Hx. cbn [fst snd]. intros -> ->.
  unfold main. cbv [mbind M_bind bind]. rewrite Hi, Hs, Hx.
  destruct rx as [[]|e|]; rewrite <- ?app_assoc; try reflexivity.
  destruct (run_face_recognition env ticks COLLECTION_ID SIMILARITY_THRESHOLD boot)
    as [[t2 [[]|e|]] d]; cbn; rewrite <- ?app_assoc; reflexivity.
Qed.

(** ** C6: setting the collection up twice *)

(** C6.  [setup_collection] returns in the same way when the collection is
    created and when the service says it already exists; so against a service
    that holds the collections [cs], setting up once and then once more
    returns both times, the second time on [ResourceAlreadyExistsException],
    and the second run leaves the service as the first one did. *)
Theorem setup_collection_idempotent env1 env2 cid cs d
    (Hfirst : on_create_collection env1 cid = (service_create_collection cs cid).1)
    (Hsecond : on_create_collection env2 cid =
               (service_create_collection (service_create_collection cs cid).2 cid).1) :
  (setup_collection env1 cid d).1.2 = Returns tt /\
  (setup_collection env1 cid d).2 = d /\
  on_create_collection env2 cid = Throw ResourceAlreadyExistsException /\
  setup_collection env2 cid d =
    ([create_collection cid; log INFO (CollectionExists cid)], Returns tt, d) /\
  (service_create_collection (service_create_collection cs cid).2 cid).2 =
    (service_create_collection cs cid).2.
Proof.
  assert (Hin : cid ∈ (service_create_collection cs cid).2).
  { unfold service_create_collection. case_decide; cbn; set_solver. }
  assert (Hsnd : service_create_collection (service_create_collection cs cid).2 cid =
                 (Throw ResourceAlreadyExistsException, (service_create_collection cs cid).2)).
  { unfold service_create_collection at 1. now rewrite decide_True. }
  rewrite Hsnd in *. cbn [fst snd] in Hsecond.
  rewrite !setup_collection_eq, Hfirst, Hsecond.
  unfold service_create_collection. case_decide; cbn; repeat split; reflexivity.
Qed.

Lemma setup_collection_idempotent_witness :
  (setup_collection env_ok COLLECTION_ID boot).1.2 = Returns tt /\
  setup_collection env_again COLLECTION_ID boot =
    ([create_collection COLLECTION_ID; log INFO (CollectionExists COLLECTION_ID)],
     Returns tt, boot).
Proof.
  pose proof (setup_collection_idempotent env_ok env_again COLLECTION_ID ∅ boot) as H.
  assert (H1 : on_create_collection env_ok COLLECTION_ID =
               (service_create_collection ∅ COLLECTION_ID).1).
  { unfold service_create_collection. rewrite decide_False by set_solver. reflexivity. }
  assert (H2 : on_create_collection env_again COLLECTION_ID =
               (service_create_collection
                  (service_create_collection ∅ COLLECTION_ID).2 COLLECTION_ID).1).
  { unfold service_create_collection at 2. rewrite decide_False by set_solver.
    unfold service_create_collection. rewrite decide_True by set_solver. reflexivity. }
  destruct (H H1 H2) as (R1 & _ & _ & R2 & _). exact (conj R1 R2).
Defined.

(** ** The capture, from open to release *)

Lemma cleanup_eq d :
  cleanup d =
  (log INFO Releasing :: (if cap_opened d then [cap_release] else []) ++
   [destroyAllWindows; log INFO Released],
   Returns tt, {| cap_opened := false; windows := false |}).
Proof. unfold cleanup. run. destruct d as [[] w]; reflexivity. Qed.

Lemma run_face_recognition_eq env ticks cid th d :
  run_face_recognition env ticks cid th d =
  let pre := [log INFO StartingCapture; VideoCapture 0] in
  if on_VideoCapture env 0
  then
    match loop ticks cid th {| cap_opened := true; windows := windows d |} with
    | (t, Pending, d1) => (pre ++ t, Pending, d1)
    | (t, r, d1) =>
        (pre ++ t ++ log INFO Releasing :: (if cap_opened d1 then [cap_release] else []) ++
         [destroyAllWindows; log INFO Released],
         r, {| cap_opened := false; windows := false |})
    end
  else (pre ++ [log ERROR WebcamNotOpened], Raises (SystemExit 1),
        {| cap_opened := false; windows := windows d |}).
Proof.
  unfold run_face_recognition.
  cbv [mbind mret M_bind M_ret bind ret emit raise sys_exit get_state set_state
       try_finally]. cbn [cap_opened windows app].
  destruct (on_VideoCapture env 0); cbn [negb app]; [|reflexivity].
  destruct (loop ticks cid th _) as [[t r] d1].
  rewrite cleanup_eq. destruct r; reflexivity.
Qed.

(** ** C7: the camera is released on every way out of the loop *)

(** C7.  Once the camera has opened, however [run_face_recognition] ends (the
    user quits, a frame read fails, an exception leaves the loop), it has
    called [cap.release()] exactly once and [cv2.destroyAllWindows()] exactly
    once, after everything else, and leaves the handle closed and no window. *)
Theorem camera_released_on_every_exit env ticks cid th d
    (Hopened : on_VideoCapture env 0 = true)
    (Hexit : (run_face_recognition env ticks cid th d).1.2 <> Pending) :
  count is_cap_release (run_face_recognition env ticks cid th d).1.1 = 1 /\
  count is_destroyAllWindows (run_face_recognition env ticks cid th d).1.1 = 1 /\
  (run_face_recognition env ticks cid th d).2 = {| cap_opened := false; windows := false |} /\
  exists t, (run_face_recognition env ticks cid th d).1.1 =
            t ++ [log INFO Releasing; cap_release; destroyAllWindows; log INFO Released] /\
            count is_cap_release t = 0.
Proof.
  revert Hexit. rewrite run_face_recognition_eq, Hopened. cbv zeta.
  destruct (loop_frame ticks cid th {| cap_opened := true; windows := windows d |})
    as (t & r & w & -> & H1 & H2 & _ & _).
  cbn [cap_opened].
  assert (Hcount : forall p,
            count p ([log INFO StartingCapture; VideoCapture 0] ++ t ++
                     [log INFO Releasing; cap_release; destroyAllWindows; log INFO Released])
            = count p [log INFO StartingCapture; VideoCapture 0] + count p t +
              count p [log INFO Releasing; cap_release; destroyAllWindows; log INFO Released])
    by (intros p; rewrite !count_app; apply Nat.add_assoc).
  destruct r as [[]|e|]; cbn [fst snd app]; intros Hexit; try (now exfalso; apply Hexit);
    (split; [rewrite Hcount, H1; reflexivity|];
     split; [rewrite Hcount, H2; reflexivity|];
     split; [reflexivity|];
     exists ([log INFO StartingCapture; VideoCapture 0] ++ t);
     split; [now rewrite <- app_assoc|now rewrite count_app, H1]).
Qed.

Lemma camera_released_on_every_exit_witness :
  (* the user quits *)
  count is_cap_release
    (run_face_recognition env_ok [tick_jane 91.5%float (-1); tick_jane 91.5%float 113]
       COLLECTION_ID SIMILARITY_THRESHOLD boot).1.1 = 1 /\
  (* a frame read fails *)
  count is_cap_release
    (run_face_recognition env_ok [tick_jane 91.5%float (-1); tick_end_of_stream]
       COLLECTION_ID SIMILARITY_THRESHOLD boot).1.1 = 1 /\
  (* an exception leaves the loop *)
  count is_cap_release
    (run_face_recognition env_ok [tick_jane 91.5%float (-1); tick_interrupted]
       COLLECTION_ID SIMILARITY_THRESHOLD boot).1.1 = 1.
Proof.
  split; [|split].
  - refine (proj1 (camera_released_on_every_exit env_ok
              [tick_jane 91.5%float (-1); tick_jane 91.5%float 113]
              COLLECTION_ID SIMILARITY_THRESHOLD boot eq_refl _)).
    vm_compute. discriminate.
  - refine (proj1 (camera_released_on_every_exit env_ok
              [tick_jane 91.5%float (-1); tick_end_of_stream]
              COLLECTION_ID SIMILARITY_THRESHOLD boot eq_refl _)).
    vm_compute. discriminate.
  - refine (proj1 (camera_released_on_every_exit env_ok
              [tick_jane 91.5%float (-1); tick_interrupted]
              COLLECTION_ID SIMILARITY_THRESHOLD boot eq_refl _)).
    vm_compute. discriminate.
Defined.

(** ** C9: the end of the stream *)

Lemma records_no_cap_read dec : count is_cap_read (records dec) = 0.
Proof. now destruct dec. Qed.

(** Every iteration reads the camera once. *)
Lemma iteration_reads_once tk cid th d :
  count is_cap_read (iteration tk cid th d).1.1 = 1.
Proof.
  rewrite iteration_eq.
  destruct (on_read tk) as [[img|]|e]; try reflexivity.
  destruct (on_imencode tk img) as [[buf|]|e]; try reflexivity.
  cbv zeta.
  destruct (decision_of (on_search tk cid buf th 1%Z) th) as [dec|]; [|reflexivity].
  destruct (on_imshow tk) as [[]|?]; [destruct (on_waitKey tk) as [key|?];
    [destruct (Z.land key 255 =? 113)%Z|]|]; cbn [fst snd];
    rewrite !count_app, records_no_cap_read; reflexivity.
Qed.

(** A loop still running after [pre] has read one frame per tick of [pre]. *)
Lemma loop_reads pre cid th : forall d t d1,
  loop pre cid th d = (t, Pending, d1) -> count is_cap_read t = length pre.
Proof.
  induction pre as [|tk pre IH]; intros d t d1 H.
  - cbn in H. now inversion H.
  - rewrite loop_cons in H. pose proof (iteration_reads_once tk cid th d) as Hone.
    destruct (iteration tk cid th d) as [[t0 [[]|e|]] d0] eqn:Hit; try discriminate.
    + destruct (loop pre cid th d0) as [[t2 r2] d2] eqn:E. inversion H; subst.
      rewrite count_app, (IH _ _ _ E). cbn [fst snd] in Hone. now rewrite Hone.
    + now apply iteration_not_pending in Hit.
Qed.

(** The bootstrap does not touch the camera. *)
Lemma initialize_rekognition_no_capture env d :
  count is_VideoCapture (initialize_rekognition env d).1.1 = 0 /\
  count is_cap_read (initialize_rekognition env d).1.1 = 0.
Proof.
  unfold initialize_rekognition.
  destruct (negb (truthy (getenv env "AWS_ACCESS_KEY_ID"))
            || negb (truthy (getenv env "AWS_SECRET_ACCESS_KEY"))); [by split|].
  run. destruct (on_boto3_client env (REGION_NAME env)) as [[]|e]; cbn; [by split|].
  destruct (is_Exception e); by split.
Qed.

Lemma setup_collection_no_capture env cid d :
  count is_VideoCapture (setup_collection env cid d).1.1 = 0 /\
  count is_cap_read (setup_collection env cid d).1.1 = 0.
Proof.
  rewrite setup_collection_eq.
  destruct (on_create_collection env cid) as [response|e]; [by split|].
  destruct (is_ResourceAlreadyExists e); [by split|].
  destruct (is_Exception e); by split.
Qed.

Lemma enroll_calls_no_capture env cid path ext :
  count is_VideoCapture (enroll_calls env cid path ext) = 0 /\
  count is_cap_read (enroll_calls env cid path ext) = 0.
Proof. unfold enroll_calls. destruct (on_open_rb env path); by split. Qed.

(** [main] when the bootstrap returns, the camera opens, the loop runs through
    [pre] and the next frame read fails: whatever answers follow. *)
Lemma main_end_of_stream env pre tk rest :
  (initialize_rekognition env boot).1.2 = Returns tt ->
  (setup_collection env COLLECTION_ID boot).1.2 = Returns tt ->
  (index_known_face env COLLECTION_ID KNOWN_FACE_IMAGE KNOWN_FACE_ID boot).1.2 = Returns tt ->
  on_VideoCapture env 0 = true ->
  (loop pre COLLECTION_ID SIMILARITY_THRESHOLD boot).1.2 = Pending ->
  on_read tk = Value None ->
  main env (pre ++ tk :: rest) boot =
  (((initialize_rekognition env boot).1.1 ++ (setup_collection env COLLECTION_ID boot).1.1) ++
   (index_known_face env COLLECTION_ID KNOWN_FACE_IMAGE KNOWN_FACE_ID boot).1.1 ++
   ([log INFO StartingCapture; VideoCapture 0] ++
    (loop pre COLLECTION_ID SIMILARITY_THRESHOLD boot).1.1 ++
    [cap_read; log WARNING GrabFailed; log INFO Releasing; cap_release;
     destroyAllWindows; log INFO Released]) ++
   [log INFO Finished],
   Returns tt, {| cap_opened := false; windows := false |}).
Proof.
  intros Hinit Hsetup Hindex Hcam Hrunning Heos.
  rewrite (main_eq env _ Hinit Hsetup). cbv zeta.
  destruct (index_known_face_stateless env COLLECTION_ID KNOWN_FACE_IMAGE KNOWN_FACE_ID)
    as (tx & rx & Hx).
  rewrite Hx in *. cbn [fst snd] in *. subst rx.
  rewrite run_face_recognition_eq, Hcam. cbv zeta. cbn [windows boot].
  set (d0 := {| cap_opened := true; windows := false |}).
  pose proof (loop_any_state pre COLLECTION_ID SIMILARITY_THRESHOLD boot d0) as Hany.
  destruct (loop_frame pre COLLECTION_ID SIMILARITY_THRESHOLD d0)
    as (tp & rp & w & Hl & _ & _ & _ & _).
  rewrite Hl in Hany. cbn [fst snd] in Hany.
  rewrite Hany in *. cbn [fst snd] in *. subst rp.
  rewrite (loop_app _ (tk :: rest) _ _ _ _ _ Hl), loop_cons, iteration_eq, Heos.
  cbn [cap_opened d0]. rewrite <- !app_assoc. reflexivity.
Qed.

(** C9.  When a frame read fails, the loop stops, the [finally] block
    releases the camera and the windows, [run_face_recognition] returns and
    [main] returns after "Application finished.": exit status 0, no
    exception.  The failed read is the last one, and the answers the world
    would have given afterwards are never asked for. *)
Theorem end_of_stream_stops_gracefully env pre tk rest
    (Hinit : (initialize_rekognition env boot).1.2 = Returns tt)
    (Hsetup : (setup_collection env COLLECTION_ID boot).1.2 = Returns tt)
    (Hindex : (index_known_face env COLLECTION_ID KNOWN_FACE_IMAGE KNOWN_FACE_ID boot).1.2
              = Returns tt)
    (Hcam : on_VideoCapture env 0 = true)
    (Hrunning : (loop pre COLLECTION_ID SIMILARITY_THRESHOLD boot).1.2 = Pending)
    (Heos : on_read tk = Value None) :
  (main env (pre ++ tk :: rest) boot).1.2 = Returns tt /\
  exit_status (main env (pre ++ tk :: rest) boot).1.2 = Some 0%Z /\
  (main env (pre ++ tk :: rest) boot).2 = {| cap_opened := false; windows := false |} /\
  (exists t, (main env (pre ++ tk :: rest) boot).1.1 =
             t ++ [cap_read; log WARNING GrabFailed; log INFO Releasing; cap_release;
                   destroyAllWindows; log INFO Released; log INFO Finished]) /\
  count is_cap_read (main env (pre ++ tk :: rest) boot).1.1 = S (length pre) /\
  main env (pre ++ tk :: rest) boot = main env (pre ++ [tk]) boot.
Proof.
  pose proof (main_end_of_stream env pre tk rest Hinit Hsetup Hindex Hcam Hrunning Heos) as E.
  pose proof (main_end_of_stream env pre tk [] Hinit Hsetup Hindex Hcam Hrunning Heos) as E0.
  rewrite E0, E. cbn [fst snd exit_status].
  split; [reflexivity|]. split; [reflexivity|]. split; [reflexivity|]. split; [|split].
  - exists (((initialize_rekognition env boot).1.1 ++
             (setup_collection env COLLECTION_ID boot).1.1) ++
            (index_known_face env COLLECTION_ID KNOWN_FACE_IMAGE KNOWN_FACE_ID boot).1.1 ++
            [log INFO StartingCapture; VideoCapture 0] ++
            (loop pre COLLECTION_ID SIMILARITY_THRESHOLD boot).1.1).
    rewrite <- !app_assoc. cbn [app]. reflexivity.
  - destruct (loop pre COLLECTION_ID SIMILARITY_THRESHOLD boot) as [[tp rp] dp] eqn:Hl.
    cbn [fst snd] in *. subst rp.
    rewrite !count_app, (loop_reads _ _ _ _ _ _ Hl).
    rewrite (proj2 (initialize_rekognition_no_capture env boot)),
            (proj2 (setup_collection_no_capture env COLLECTION_ID boot)).
    rewrite index_known_face_eq in *.
    destruct (enroll_failure env COLLECTION_ID KNOWN_FACE_IMAGE KNOWN_FACE_ID) as [e|];
      [destruct (is_FileNotFoundError e); [|destruct (is_Exception e)]|];
      cbn [fst snd] in *; rewrite ?count_app, ?(proj2 (enroll_calls_no_capture _ _ _ _));
      cbn; lia.
  - reflexivity.
Qed.

Lemma end_of_stream_stops_gracefully_witness :
  exit_status
    (main env_ok ([tick_jane 91.5%float (-1)] ++
                  tick_end_of_stream :: [tick_jane 91.5%float (-1)]) boot).1.2 = Some 0%Z /\
  count is_cap_read
    (main env_ok ([tick_jane 91.5%float (-1)] ++
                  tick_end_of_stream :: [tick_jane 91.5%float (-1)]) boot).1.1 = 2.
Proof.
  pose proof (end_of_stream_stops_gracefully env_ok [tick_jane 91.5%float (-1)]
                tick_end_of_stream [tick_jane 91.5%float (-1)]
                eq_refl eq_refl eq_refl eq_refl eq_refl eq_refl) as H.
  exact (conj (proj1 (proj2 H)) (proj1 (proj2 (proj2 (proj2 (proj2 H)))))).
Defined.

(** [run_face_recognition] opens the camera once, whatever follows. *)
Lemma run_face_recognition_opens_camera env ticks cid th d :
  count is_VideoCapture (run_face_recognition env ticks cid th d).1.1 = 1.
Proof.
  rewrite run_face_recognition_eq. cbv zeta.
  destruct (on_VideoCapture env 0); [|reflexivity].
  destruct (loop_frame ticks cid th {| cap_opened := true; windows := windows d |})
    as (t & r & w & -> & _ & _ & H3 & _).
  destruct r; cbn [fst snd cap_opened]; rewrite !count_app, H3; reflexivity.
Qed.

(** ** C2: when the enrollment fails *)

(** C2, as the code has it.  The client being there and the collection set
    up, an enrollment that fails with an [Exception] is fatal exactly when the
    exception is [FileNotFoundError]: then [main] logs "Image file not found"
    and exits with status 1 before the camera is opened or read.  On any other
    [Exception] (the image cannot be read for another reason, [index_faces]
    fails) [index_known_face] logs the error and returns, and [main] goes on
    to [run_face_recognition]. *)
Theorem enrollment_failure_fatal_only_if_file_missing env ticks e
    (Hinit : (initialize_rekognition env boot).1.2 = Returns tt)
    (Hsetup : (setup_collection env COLLECTION_ID boot).1.2 = Returns tt)
    (Hfail : enroll_failure env COLLECTION_ID KNOWN_FACE_IMAGE KNOWN_FACE_ID = Some e)
    (Hexc : is_Exception e = true) :
  if is_FileNotFoundError e
  then
    (main env ticks boot).1.2 = Raises (SystemExit 1) /\
    exit_status (main env ticks boot).1.2 = Some 1%Z /\
    last (main env ticks boot).1.1 = Some (log ERROR (ImageNotFound KNOWN_FACE_IMAGE)) /\
    count is_VideoCapture (main env ticks boot).1.1 = 0 /\
    count is_cap_read (main env ticks boot).1.1 = 0
  else
    (index_known_face env COLLECTION_ID KNOWN_FACE_IMAGE KNOWN_FACE_ID boot).1.2
      = Returns tt /\
    count is_VideoCapture
      (run_face_recognition env ticks COLLECTION_ID SIMILARITY_THRESHOLD boot).1.1 = 1 /\
    exists t0 t3,
      (main env ticks boot).1.1 =
        t0 ++ [log ERROR (IndexError KNOWN_FACE_IMAGE e)] ++
        (run_face_recognition env ticks COLLECTION_ID SIMILARITY_THRESHOLD boot).1.1 ++ t3.
Proof.
  rewrite (main_eq env ticks Hinit Hsetup). cbv zeta.
  rewrite index_known_face_eq, Hfail.
  destruct (is_FileNotFoundError e).
  - cbn [fst snd exit_status].
    split; [reflexivity|]. split; [reflexivity|]. split; [|split].
    + rewrite !app_assoc. apply last_snoc.
    + rewrite !count_app,
        (proj1 (initialize_rekognition_no_capture env boot)),
        (proj1 (setup_collection_no_capture env COLLECTION_ID boot)),
        (proj1 (enroll_calls_no_capture _ _ _ _)). reflexivity.
    + rewrite !count_app,
        (proj2 (initialize_rekognition_no_capture env boot)),
        (proj2 (setup_collection_no_capture env COLLECTION_ID boot)),
        (proj2 (enroll_calls_no_capture _ _ _ _)). reflexivity.
  - rewrite Hexc. split; [reflexivity|].
    split; [apply run_face_recognition_opens_camera|].
    destruct (run_face_recognition env ticks COLLECTION_ID SIMILARITY_THRESHOLD boot)
      as [[tr [[]|?|]] dr]; cbn [fst snd].
    + exists (((initialize_rekognition env boot).1.1 ++
               (setup_collection env COLLECTION_ID boot).1.1) ++
              enroll_calls env COLLECTION_ID KNOWN_FACE_IMAGE KNOWN_FACE_ID),
             [log INFO Finished].
      rewrite <- !app_assoc. reflexivity.
    + exists (((initialize_rekognition env boot).1.1 ++
               (setup_collection env COLLECTION_ID boot).1.1) ++
              enroll_calls env COLLECTION_ID KNOWN_FACE_IMAGE KNOWN_FACE_ID), [].
      rewrite <- !app_assoc, app_nil_r. reflexivity.
    + exists (((initialize_rekognition env boot).1.1 ++
               (setup_collection env COLLECTION_ID boot).1.1) ++
              enroll_calls env COLLECTION_ID KNOWN_FACE_IMAGE KNOWN_FACE_ID), [].
      rewrite <- !app_assoc, app_nil_r. reflexivity.
Qed.

Lemma enrollment_failure_fatal_only_if_file_missing_witness :
  exit_status (main env_image_missing [tick_jane 91.5%float 113] boot).1.2 = Some 1%Z /\
  (index_known_face env_index_refused COLLECTION_ID KNOWN_FACE_IMAGE KNOWN_FACE_ID boot).1.2
    = Returns tt.
Proof.
  split.
  - exact (proj1 (proj2 (enrollment_failure_fatal_only_if_file_missing env_image_missing
             [tick_jane 91.5%float 113] FileNotFoundError eq_refl eq_refl eq_refl eq_refl))).
  - exact (proj1 (enrollment_failure_fatal_only_if_file_missing env_index_refused
             [tick_jane 91.5%float 113] (Error "InvalidParameterException")
             eq_refl eq_refl eq_refl eq_refl)).
Defined.

(** C2, as the claim has it, fails: an enrollment that fails otherwise than
    on a missing file is not fatal.  The service refuses the reference image,
    or the image cannot be read: the process opens the camera all the same,
    reads and searches a frame, and exits with status 0 when the user quits. *)
Lemma enrollment_failure_not_fatal :
  enroll_failure env_index_refused COLLECTION_ID KNOWN_FACE_IMAGE KNOWN_FACE_ID
    = Some (Error "InvalidParameterException") /\
  exit_status (main env_index_refused [tick_jane 91.5%float 113] boot).1.2 = Some 0%Z /\
  count is_cap_read (main env_index_refused [tick_jane 91.5%float 113] boot).1.1 = 1 /\
  count is_search (main env_index_refused [tick_jane 91.5%float 113] boot).1.1 = 1 /\
  enroll_failure env_image_unreadable COLLECTION_ID KNOWN_FACE_IMAGE KNOWN_FACE_ID
    = Some (Error "PermissionError") /\
  exit_status (main env_image_unreadable [tick_jane 91.5%float 113] boot).1.2 = Some 0%Z /\
  count is_search (main env_image_unreadable [tick_jane 91.5%float 113] boot).1.1 = 1.
Proof. repeat (split; [vm_compute; reflexivity|]). vm_compute. reflexivity. Qed.

(** * Further properties of main.py *)

(** ** The start of the process *)

Lemma initialize_rekognition_eq env d :
  initialize_rekognition env d =
  if negb (truthy (getenv env "AWS_ACCESS_KEY_ID"))
     || negb (truthy (getenv env "AWS_SECRET_ACCESS_KEY"))
  then ([log ERROR CredentialsNotFound], Raises (SystemExit 1), d)
  else
    match on_boto3_client env (REGION_NAME env) with
    | Value _ =>
        ([boto3_client (REGION_NAME env); log INFO (ClientInitialized (REGION_NAME env))],
         Returns tt, d)
    | Throw e =>
        if is_Exception e
        then ([boto3_client (REGION_NAME env); log ERROR (ClientInitError e)],
              Raises (SystemExit 1), d)
        else ([boto3_client (REGION_NAME env)], Raises e, d)
    end.
Proof.
  unfold initialize_rekognition.
  destruct (negb (truthy (getenv env "AWS_ACCESS_KEY_ID"))
            || negb (truthy (getenv env "AWS_SECRET_ACCESS_KEY"))); [reflexivity|].
  run. destruct (on_boto3_client env (REGION_NAME env)) as [[]|e]; cbn; [reflexivity|].
  destruct (is_Exception e); reflexivity.
Qed.

(** [main] stops where the first bootstrap step raises. *)
Lemma main_stops_at_initialize env ticks e :
  (initialize_rekognition env boot).1.2 = Raises e ->
  main env ticks boot = ((initialize_rekognition env boot).1.1, Raises e, boot).
Proof.
  destruct (initialize_rekognition_stateless env) as (ti & ri & Hi).
  rewrite Hi. cbn [fst snd]. intros ->.
  unfold main. cbv [mbind M_bind bind]. now rewrite Hi.
Qed.

Lemma main_stops_at_setup env ticks e :
  (initialize_rekognition env boot).1.2 = Returns tt ->
  (setup_collection env COLLECTION_ID boot).1.2 = Raises e ->
  main env ticks boot =
    ((initialize_rekognition env boot).1.1 ++ (setup_collection env COLLECTION_ID boot).1.1,
     Raises e, boot).
Proof.
  destruct (initialize_rekognition_stateless env) as (ti & ri & Hi).
  destruct (setup_collection_stateless env COLLECTION_ID) as (ts & rs & Hs).
  rewrite Hi, Hs. cbn [fst snd]. intros -> ->.
  unfold main. cbv [mbind M_bind bind]. now rewrite Hi, Hs.
Qed.

(** X1.  When either credential is missing from the environment, or is the
    empty string, the process logs one error and exits with status 1: no
    client is built, no call reaches the service, the camera is not opened. *)
Theorem missing_credentials_are_fatal env ticks
    (Hmissing : truthy (getenv env "AWS_ACCESS_KEY_ID") = false \/
                truthy (getenv env "AWS_SECRET_ACCESS_KEY") = false) :
  main env ticks boot = ([log ERROR CredentialsNotFound], Raises (SystemExit 1), boot) /\
  exit_status (main env ticks boot).1.2 = Some 1%Z.
Proof.
  assert (Hi : initialize_rekognition env boot =
               ([log ERROR CredentialsNotFound], Raises (SystemExit 1), boot)).
  { rewrite initialize_rekognition_eq.
    destruct Hmissing as [-> | ->]; [reflexivity|].
    now rewrite orb_true_r. }
  assert (Hm : main env ticks boot =
               ([log ERROR CredentialsNotFound], Raises (SystemExit 1), boot)).
  { rewrite (main_stops_at_initialize env ticks (SystemExit 1)); now rewrite Hi. }
  split; [exact Hm|]. now rewrite Hm.
Qed.

Lemma missing_credentials_are_fatal_witness :
  main env_empty_secret [tick_jane 91.5%float 113] boot =
    ([log ERROR CredentialsNotFound], Raises (SystemExit 1), boot).
Proof.
  exact (proj1 (missing_credentials_are_fatal env_empty_secret [tick_jane 91.5%float 113]
                  (or_intror eq_refl))).
Defined.

(** X2.  With both credentials there, an [Exception] raised while the client
    is built is logged and the process exits with status 1, having asked the
    service for nothing.  The client is asked for in the region of
    [AWS_REGION], or us-east-1 when that variable is not set. *)
Theorem client_failure_is_fatal env ticks e
    (Hkey : truthy (getenv env "AWS_ACCESS_KEY_ID") = true)
    (Hsecret : truthy (getenv env "AWS_SECRET_ACCESS_KEY") = true)
    (Hfail : on_boto3_client env (default "us-east-1" (getenv env "AWS_REGION")) = Throw e)
    (Hexc : is_Exception e = true) :
  main env ticks boot =
    ([boto3_client (default "us-east-1" (getenv env "AWS_REGION"));
      log ERROR (ClientInitError e)],
     Raises (SystemExit 1), boot) /\
  exit_status (main env ticks boot).1.2 = Some 1%Z.
Proof.
  assert (Hi : initialize_rekognition env boot =
               ([boto3_client (REGION_NAME env); log ERROR (ClientInitError e)],
                Raises (SystemExit 1), boot)).
  { rewrite initialize_rekognition_eq, Hkey, Hsecret. cbn [negb orb].
    unfold REGION_NAME. now rewrite Hfail, Hexc. }
  assert (Hm : main env ticks boot =
               ([boto3_client (REGION_NAME env); log ERROR (ClientInitError e)],
                Raises (SystemExit 1), boot)).
  { rewrite (main_stops_at_initialize env ticks (SystemExit 1)); now rewrite Hi. }
  split; [exact Hm|]. now rewrite Hm.
Qed.

Lemma client_failure_is_fatal_witness :
  main env_client_fails [tick_jane 91.5%float 113] boot =
    ([boto3_client "us-east-1"; log ERROR (ClientInitError (Error "NoRegionError"))],
     Raises (SystemExit 1), boot).
Proof.
  exact (proj1 (client_failure_is_fatal env_client_fails [tick_jane 91.5%float 113]
                  (Error "NoRegionError") eq_refl eq_refl eq_refl eq_refl)).
Defined.

Lemma initialize_rekognition_no_enrollment env d :
  count is_enrollment (initialize_rekognition env d).1.1 = 0.
Proof.
  rewrite initialize_rekognition_eq.
  destruct (negb (truthy (getenv env "AWS_ACCESS_KEY_ID"))
            || negb (truthy (getenv env "AWS_SECRET_ACCESS_KEY"))); [reflexivity|].
  destruct (on_boto3_client env (REGION_NAME env)) as [[]|e]; [reflexivity|].
  destruct (is_Exception e); reflexivity.
Qed.

(** X3.  The client being there, an [Exception] of [create_collection] other
    than [ResourceAlreadyExistsException] is fatal: it is logged and the
    process exits with status 1 before the reference image is opened or
    indexed and before the camera is opened. *)
Theorem collection_failure_is_fatal env ticks e
    (Hinit : (initialize_rekognition env boot).1.2 = Returns tt)
    (Hfail : on_create_collection env COLLECTION_ID = Throw e)
    (Hexc : is_Exception e = true)
    (Hother : is_ResourceAlreadyExists e = false) :
  main env ticks boot =
    ((initialize_rekognition env boot).1.1 ++
     [create_collection COLLECTION_ID; log ERROR (CollectionError COLLECTION_ID e)],
     Raises (SystemExit 1), boot) /\
  exit_status (main env ticks boot).1.2 = Some 1%Z /\
  count is_enrollment (main env ticks boot).1.1 = 0 /\
  count is_VideoCapture (main env ticks boot).1.1 = 0.
Proof.
  assert (Hs : setup_collection env COLLECTION_ID boot =
               ([create_collection COLLECTION_ID;
                 log ERROR (CollectionError COLLECTION_ID e)],
                Raises (SystemExit 1), boot))
    by (now rewrite setup_collection_eq, Hfail, Hother, Hexc).
  assert (Hm : main env ticks boot =
    ((initialize_rekognition env boot).1.1 ++
     [create_collection COLLECTION_ID; log ERROR (CollectionError COLLECTION_ID e)],
     Raises (SystemExit 1), boot)).
  { rewrite (main_stops_at_setup env ticks (SystemExit 1) Hinit); now rewrite Hs. }
  rewrite Hm. cbn [fst snd exit_status].
  split; [reflexivity|]. split; [reflexivity|].
  rewrite !count_app, initialize_rekognition_no_enrollment,
    (proj1 (initialize_rekognition_no_capture env boot)).
  split; reflexivity.
Qed.

Lemma collection_failure_is_fatal_witness :
  exit_status (main env_collection_denied [tick_jane 91.5%float 113] boot).1.2 = Some 1%Z /\
  count is_enrollment (main env_collection_denied [tick_jane 91.5%float 113] boot).1.1 = 0.
Proof.
  pose proof (collection_failure_is_fatal env_collection_denied [tick_jane 91.5%float 113]
                (Error "AccessDeniedException") eq_refl eq_refl eq_refl eq_refl) as H.
  exact (conj (proj1 (proj2 H)) (proj1 (proj2 (proj2 H)))).
Defined.

(** X4.  When the camera does not open, [run_face_recognition] logs the error
    and exits with status 1 before the [try]: no frame is read, nothing is
    searched, and neither [cap.release()] nor [cv2.destroyAllWindows()] is
    called.  After a bootstrap that returned, that is how [main] ends. *)
Theorem camera_not_opened_is_fatal env ticks cid th d
    (Hclosed : on_VideoCapture env 0 = false) :
  run_face_recognition env ticks cid th d =
    ([log INFO StartingCapture; VideoCapture 0; log ERROR WebcamNotOpened],
     Raises (SystemExit 1), {| cap_opened := false; windows := windows d |}) /\
  ((initialize_rekognition env boot).1.2 = Returns tt ->
   (setup_collection env COLLECTION_ID boot).1.2 = Returns tt ->
   (index_known_face env COLLECTION_ID KNOWN_FACE_IMAGE KNOWN_FACE_ID boot).1.2 = Returns tt ->
   exit_status (main env ticks boot).1.2 = Some 1%Z /\
   last (main env ticks boot).1.1 = Some (log ERROR WebcamNotOpened) /\
   count is_cap_read (main env ticks boot).1.1 = 0).
Proof.
  assert (Hrun : forall c t d0, run_face_recognition env ticks c t d0 =
    ([log INFO StartingCapture; VideoCapture 0; log ERROR WebcamNotOpened],
     Raises (SystemExit 1), {| cap_opened := false; windows := windows d0 |}))
    by (intros; now rewrite run_face_recognition_eq, Hclosed).
  split; [apply Hrun|]. intros Hinit Hsetup Hindex.
  rewrite (main_eq env ticks Hinit Hsetup). cbv zeta.
  destruct (index_known_face_stateless env COLLECTION_ID KNOWN_FACE_IMAGE KNOWN_FACE_ID)
    as (tx & rx & Hx).
  pose proof (index_known_face_eq env COLLECTION_ID KNOWN_FACE_IMAGE KNOWN_FACE_ID boot)
    as Hxeq.
  rewrite Hx in *. cbn [fst snd] in Hindex. subst rx. rewrite Hrun.
  cbn [fst snd exit_status]. split; [reflexivity|]. split.
  - rewrite !app_assoc.
    change [log INFO StartingCapture; VideoCapture 0; log ERROR WebcamNotOpened]
      with ([log INFO StartingCapture; VideoCapture 0] ++ [log ERROR WebcamNotOpened]).
    rewrite app_assoc. apply last_snoc.
  - rewrite !count_app,
      (proj2 (initialize_rekognition_no_capture env boot)),
      (proj2 (setup_collection_no_capture env COLLECTION_ID boot)).
    assert (Htx : count is_cap_read tx = 0).
    { destruct (enroll_failure env COLLECTION_ID KNOWN_FACE_IMAGE KNOWN_FACE_ID) as [e|];
        [destruct (is_FileNotFoundError e); [|destruct (is_Exception e)]|];
        inversion Hxeq; subst;
        rewrite ?count_app, (proj2 (enroll_calls_no_capture _ _ _ _)); reflexivity. }
    rewrite Htx. reflexivity.
Qed.

Lemma camera_not_opened_is_fatal_witness :
  exit_status (main env_no_camera [tick_jane 91.5%float 113] boot).1.2 = Some 1%Z /\
  count is_cap_read (main env_no_camera [tick_jane 91.5%float 113] boot).1.1 = 0.
Proof.
  pose proof (proj2 (camera_not_opened_is_fatal env_no_camera [tick_jane 91.5%float 113]
                       COLLECTION_ID SIMILARITY_THRESHOLD boot eq_refl)
                    eq_refl eq_refl eq_refl) as H.
  exact (conj (proj1 H) (proj2 (proj2 H))).
Defined.

(** ** The search block *)

(** X5.  A candidate that carries no [ExternalImageId] makes
    [match['Face']['ExternalImageId']] raise [KeyError] inside the [try]: the
    frame is annotated "Search Error" although the search itself returned,
    whatever the similarity of the candidate. *)
Theorem missing_external_id_is_search_error tk cid th frame buf d resp m rest
    (Hsearch : on_search tk cid buf th 1%Z = Value resp)
    (Hmatches : FaceMatches resp = Some (m :: rest))
    (Hanonymous : ExternalImageId (Face m) = None) :
  decision_of (Value resp) th = Some (SearchError (KeyError "ExternalImageId")) /\
  search_and_annotate tk cid th frame buf d =
    ([search_faces_by_image cid buf th 1;
      log ERROR (SearchFailed (KeyError "ExternalImageId"));
      putText search_error_text],
     Returns (putText_on frame search_error_text), d).
Proof.
  assert (Hdec : decision_of (Value resp) th = Some (SearchError (KeyError "ExternalImageId")))
    by (unfold decision_of; rewrite Hmatches; cbn; now rewrite Hanonymous).
  split; [exact Hdec|].
  rewrite search_and_annotate_decision, Hsearch. cbv zeta. now rewrite Hdec.
Qed.

Lemma missing_external_id_is_search_error_witness :
  decision_of (Value (anonymous_match 99.5%float)) SIMILARITY_THRESHOLD
    = Some (SearchError (KeyError "ExternalImageId")).
Proof.
  exact (proj1 (missing_external_id_is_search_error
                  (tick_answering (anonymous_match 99.5%float))
                  COLLECTION_ID SIMILARITY_THRESHOLD (mkFrame [] []) [] boot
                  (anonymous_match 99.5%float) _ [] eq_refl eq_refl eq_refl)).
Defined.

(** X6.  Nothing of class [Exception] leaves the search block: it returns the
    frame with one overlay drawn on it, or it raises what the search call
    itself raised, and that is not an [Exception] (a [KeyboardInterrupt], a
    [SystemExit]). *)
Theorem search_block_contains_exceptions tk cid th frame buf d :
  match (search_and_annotate tk cid th frame buf d).1.2 with
  | Returns annotated => exists dec, annotated = putText_on frame (overlay dec)
  | Raises e => is_Exception e = false /\ on_search tk cid buf th 1%Z = Throw e
  | Pending => False
  end.
Proof.
  rewrite search_and_annotate_decision. cbv zeta. unfold decision_of.
  destruct (on_search tk cid buf th 1%Z) as [resp|e].
  - destruct (default [] (FaceMatches resp)) as [|m rest]; [by eexists|].
    destruct (ExternalImageId (Face m)); [|by eexists].
    destruct (th <=? Similarity m)%float; by eexists.
  - destruct (is_Exception e) eqn:E; [by eexists|]. by split.
Qed.

(** ** Comparison with NaN *)

Lemma SFcompare_refl_not_nan (x : spec_float) :
  SFeqb x x = false -> x = S754_nan.
Proof.
  unfold SFeqb. destruct x as [s|s| |s m e]; cbn; try discriminate; try reflexivity.
  - destruct s; discriminate.
  - rewrite Z.compare_refl, Pos.compare_cont_refl. destruct s; discriminate.
Qed.

Lemma leb_nan_l (x y : float) : is_nan x = true -> (x <=? y)%float = false.
Proof.
  unfold is_nan. intros H. apply negb_true_iff in H.
  rewrite FloatAxioms.eqb_spec in H. apply SFcompare_refl_not_nan in H.
  rewrite leb_spec, H. reflexivity.
Qed.

Lemma leb_nan_r (x y : float) : is_nan y = true -> (x <=? y)%float = false.
Proof.
  unfold is_nan. intros H. apply negb_true_iff in H.
  rewrite FloatAxioms.eqb_spec in H. apply SFcompare_refl_not_nan in H.
  rewrite leb_spec, H. unfold SFleb. destruct (Prim2SF x); reflexivity.
Qed.

(** X7.  [sim >= similarity_threshold] is false as soon as either side is a
    NaN: with a NaN threshold, or a NaN similarity, a candidate is never a
    match; it is logged and drawn as "Low Match". *)
Theorem nan_never_matches tk cid th frame buf d resp m rest face_id
    (Hsearch : on_search tk cid buf th 1%Z = Value resp)
    (Hmatches : FaceMatches resp = Some (m :: rest))
    (Hid : ExternalImageId (Face m) = Some face_id)
    (Hnan : is_nan th = true \/ is_nan (Similarity m) = true) :
  decision_of (Value resp) th = Some (LowMatch face_id (Similarity m)) /\
  (search_and_annotate tk cid th frame buf d).1.2 =
    Returns (putText_on frame low_match_text).
Proof.
  assert (Hcmp : (th <=? Similarity m)%float = false)
    by (destruct Hnan; [now apply leb_nan_l | now apply leb_nan_r]).
  assert (Hdec : decision_of (Value resp) th = Some (LowMatch face_id (Similarity m)))
    by (unfold decision_of; rewrite Hmatches; cbn; now rewrite Hid, Hcmp).
  split; [exact Hdec|].
  rewrite search_and_annotate_decision, Hsearch. cbv zeta. now rewrite Hdec.
Qed.

Lemma nan_never_matches_witness :
  decision_of (Value (one_match "jane" 100%float)) nan
    = Some (LowMatch "jane" 100%float) /\
  decision_of (Value (one_match "jane" nan)) 0%float
    = Some (LowMatch "jane" nan).
Proof.
  split.
  - exact (proj1 (nan_never_matches (tick_answering (one_match "jane" 100%float))
             COLLECTION_ID nan (mkFrame [] []) [] boot (one_match "jane" 100%float)
             _ [] "jane" eq_refl eq_refl eq_refl (or_introl eq_refl))).
  - exact (proj1 (nan_never_matches (tick_answering (one_match "jane" nan))
             COLLECTION_ID 0%float (mkFrame [] []) [] boot (one_match "jane" nan)
             _ [] "jane" eq_refl eq_refl eq_refl (or_intror eq_refl))).
Defined.

(** ** The loop: how it goes on and how it ends *)

Lemma land_255 (key : Z) : Z.land key 255 = (key mod 256)%Z.
Proof. exact (Z.land_ones key 8 ltac:(discriminate)). Qed.

(** X8.  After a frame is shown, the loop stops exactly when the low byte of
    the key code is 113 ('q'): the bits above the low byte are ignored, and
    the -1 of "no key" goes on. *)
Theorem quit_on_low_byte_q tk cid th d img buf dec key
    (Hread : on_read tk = Value (Some img))
    (Hencode : on_imencode tk img = Value (Some buf))
    (Hdec : decision_of (on_search tk cid buf th 1%Z) th = Some dec)
    (Hshow : on_imshow tk = Value tt)
    (Hkey : on_waitKey tk = Value key) :
  (iteration tk cid th d).1.2 =
    Returns (if (key mod 256 =? 113)%Z then Break else Continue) /\
  ((key mod 256 =? 113)%Z = true ->
   last (iteration tk cid th d).1.1 = Some (log INFO QuitPressed)).
Proof.
  rewrite iteration_eq, Hread, Hencode. cbv zeta.
  rewrite Hdec, Hshow, Hkey, land_255.
  destruct (key mod 256 =? 113)%Z; cbn [fst snd]; split; try reflexivity; try discriminate.
  intros _. rewrite !app_assoc.
  change [waitKey 1; log INFO QuitPressed] with ([waitKey 1] ++ [log INFO QuitPressed]).
  rewrite app_assoc. apply last_snoc.
Qed.

Lemma quit_on_low_byte_q_witness :
  (iteration (tick_jane 91.5%float 1048689) COLLECTION_ID SIMILARITY_THRESHOLD boot).1.2
    = Returns Break /\
  (iteration (tick_jane 91.5%float (-1)) COLLECTION_ID SIMILARITY_THRESHOLD boot).1.2
    = Returns Continue /\
  (iteration (tick_jane 91.5%float 81) COLLECTION_ID SIMILARITY_THRESHOLD boot).1.2
    = Returns Continue.
Proof.
  split; [|split].
  - exact (proj1 (quit_on_low_byte_q (tick_jane 91.5%float 1048689) COLLECTION_ID
             SIMILARITY_THRESHOLD boot [] [] (Match "jane" 91.5%float) 1048689%Z
             eq_refl eq_refl eq_refl eq_refl eq_refl)).
  - exact (proj1 (quit_on_low_byte_q (tick_jane 91.5%float (-1)) COLLECTION_ID
             SIMILARITY_THRESHOLD boot [] [] (Match "jane" 91.5%float) (-1)%Z
             eq_refl eq_refl eq_refl eq_refl eq_refl)).
  - exact (proj1 (quit_on_low_byte_q (tick_jane 91.5%float 81) COLLECTION_ID
             SIMILARITY_THRESHOLD boot [] [] (Match "jane" 91.5%float) 81%Z
             eq_refl eq_refl eq_refl eq_refl eq_refl)).
Defined.

(** What one iteration calls: each of the five calls at most once, a later
    one only after the earlier one. *)
Lemma iteration_calls tk cid th d :
  count is_cap_read (iteration tk cid th d).1.1 = 1 /\
  count is_search (iteration tk cid th d).1.1 <= 1 /\
  count is_putText (iteration tk cid th d).1.1 <= count is_search (iteration tk cid th d).1.1 /\
  count is_imshow (iteration tk cid th d).1.1 = count is_putText (iteration tk cid th d).1.1 /\
  count is_waitKey (iteration tk cid th d).1.1 <= count is_imshow (iteration tk cid th d).1.1.
Proof.
  rewrite iteration_eq.
  destruct (on_read tk) as [[img|]|e]; [|cbn; lia..].
  destruct (on_imencode tk img) as [[buf|]|e]; [|cbn; lia..].
  cbv zeta.
  destruct (decision_of (on_search tk cid buf th 1%Z) th) as [dec|]; [|cbn; lia].
  destruct dec;
    (destruct (on_imshow tk) as [[]|?]; [destruct (on_waitKey tk) as [key|?];
       [destruct (Z.land key 255 =? 113)%Z|]|]; cbn; lia).
Qed.

(** X9.  Over any run of the loop: one frame is read per iteration begun, at
    most one search is made per frame read, a frame is annotated only after a
    search, it is shown exactly when it is annotated, and the key is polled
    only after a frame is shown. *)
Theorem loop_calls_in_step ticks cid th : forall d,
  count is_waitKey (loop ticks cid th d).1.1 <= count is_imshow (loop ticks cid th d).1.1 /\
  count is_imshow (loop ticks cid th d).1.1 = count is_putText (loop ticks cid th d).1.1 /\
  count is_putText (loop ticks cid th d).1.1 <= count is_search (loop ticks cid th d).1.1 /\
  count is_search (loop ticks cid th d).1.1 <= count is_cap_read (loop ticks cid th d).1.1 /\
  count is_cap_read (loop ticks cid th d).1.1 <= length ticks.
Proof.
  induction ticks as [|tk rest IH]; intros d.
  - cbn. lia.
  - rewrite loop_cons.
    pose proof (iteration_calls tk cid th d) as Hit.
    destruct (iteration tk cid th d) as [[t [[]|e|]] d1]; cbn [fst snd] in *;
      cbn [length]; try lia.
    specialize (IH d1).
    destruct (loop rest cid th d1) as [[t2 r2] d2]. cbn [fst snd] in *.
    rewrite !count_app. lia.
Qed.

Lemma records_no_search dec : Forall (fun e => is_search e = false) (records dec).
Proof. destruct dec; repeat constructor. Qed.

(** X10.  Every search the loop sends names the collection and the threshold
    it was started with, and asks for one face at most. *)
Theorem searches_as_configured ticks cid th : forall d,
  Forall (fun e => is_search e = true ->
                   exists buf, e = search_faces_by_image cid buf th 1)
         (loop ticks cid th d).1.1.
Proof.
  assert (Hit : forall tk d,
    Forall (fun e => is_search e = true ->
                     exists buf, e = search_faces_by_image cid buf th 1)
           (iteration tk cid th d).1.1).
  { intros tk d. rewrite iteration_eq.
    assert (Hother : forall l, Forall (fun e => is_search e = false) l ->
              Forall (fun e => is_search e = true ->
                               exists buf, e = search_faces_by_image cid buf th 1) l).
    { intros l Hl. eapply Forall_impl; [exact Hl|]. intros e He H. congruence. }
    destruct (on_read tk) as [[img|]|e]; [|apply Hother; repeat constructor..].
    destruct (on_imencode tk img) as [[buf|]|e]; [|apply Hother; repeat constructor..].
    cbv zeta.
    assert (Hpre : Forall (fun e => is_search e = true ->
                     exists buf, e = search_faces_by_image cid buf th 1)
                     [cap_read; imencode ".jpg" img; search_faces_by_image cid buf th 1]).
    { repeat constructor; try discriminate. intros _. by eexists. }
    destruct (decision_of (on_search tk cid buf th 1%Z) th) as [dec|]; [|exact Hpre].
    pose proof (Hother _ (records_no_search dec)) as Hrec.
    destruct (on_imshow tk) as [[]|?]; [destruct (on_waitKey tk) as [key|?];
       [destruct (Z.land key 255 =? 113)%Z|]|]; cbn [fst snd];
      repeat (apply Forall_app; split); try assumption;
      apply Hother; repeat constructor. }
  induction ticks as [|tk rest IH]; intros d.
  - constructor.
  - rewrite loop_cons. specialize (Hit tk d).
    destruct (iteration tk cid th d) as [[t [[]|e|]] d1]; cbn [fst snd] in *;
      try assumption.
    specialize (IH d1). destruct (loop rest cid th d1) as [[t2 r2] d2].
    cbn [fst snd] in *. apply Forall_app. by split.
Qed.

(** X11.  An exception raised by [cap.read()], or by [cv2.imencode] on the
    frame read, is outside the inner [try]: even when it is an [Exception] it
    ends the loop, and the frame is neither searched nor shown.  (A False
    [ret] of the encoder only skips the frame; an exception of the search is
    caught.) *)
Theorem unguarded_exception_ends_loop tk rest cid th d e
    (Hraise : on_read tk = Throw e \/
              exists img, on_read tk = Value (Some img) /\ on_imencode tk img = Throw e) :
  (loop (tk :: rest) cid th d).1.2 = Raises e /\
  (loop (tk :: rest) cid th d).2 = d /\
  count is_search (loop (tk :: rest) cid th d).1.1 = 0 /\
  count is_imshow (loop (tk :: rest) cid th d).1.1 = 0.
Proof.
  rewrite loop_cons, iteration_eq.
  destruct Hraise as [-> | (img & -> & ->)]; by repeat split.
Qed.

Lemma unguarded_exception_ends_loop_witness :
  (loop [tick_encoder_raises; tick_jane 91.5%float 113]
        COLLECTION_ID SIMILARITY_THRESHOLD boot).1.2 = Raises (Error "cv2.error").
Proof.
  refine (proj1 (unguarded_exception_ends_loop tick_encoder_raises
                   [tick_jane 91.5%float 113] COLLECTION_ID SIMILARITY_THRESHOLD boot
                   (Error "cv2.error") (or_intror _))).
  exists []. split; reflexivity.
Defined.

(** X12.  When an exception leaves the loop, the [finally] block runs and the
    exception goes on: [run_face_recognition] raises it after releasing the
    camera and the windows, and [main] raises it in turn without logging
    "Application finished.". *)
Theorem exception_propagates_after_cleanup env ticks e
    (Hinit : (initialize_rekognition env boot).1.2 = Returns tt)
    (Hsetup : (setup_collection env COLLECTION_ID boot).1.2 = Returns tt)
    (Hindex : (index_known_face env COLLECTION_ID KNOWN_FACE_IMAGE KNOWN_FACE_ID boot).1.2
              = Returns tt)
    (Hcam : on_VideoCapture env 0 = true)
    (Hloop : (loop ticks COLLECTION_ID SIMILARITY_THRESHOLD boot).1.2 = Raises e) :
  (run_face_recognition env ticks COLLECTION_ID SIMILARITY_THRESHOLD boot).1.2 = Raises e /\
  (main env ticks boot).1.2 = Raises e /\
  (main env ticks boot).2 = {| cap_opened := false; windows := false |} /\
  exists t, (main env ticks boot).1.1 =
            t ++ [log INFO Releasing; cap_release; destroyAllWindows; log INFO Released].
Proof.
  rewrite (main_eq env ticks Hinit Hsetup). cbv zeta.
  destruct (index_known_face_stateless env COLLECTION_ID KNOWN_FACE_IMAGE KNOWN_FACE_ID)
    as (tx & rx & Hx).
  rewrite Hx in *. cbn [fst snd] in Hindex. subst rx.
  rewrite run_face_recognition_eq, Hcam. cbv zeta. cbn [windows boot].
  set (d0 := {| cap_opened := true; windows := false |}).
  pose proof (loop_any_state ticks COLLECTION_ID SIMILARITY_THRESHOLD boot d0) as Hany.
  destruct (loop_frame ticks COLLECTION_ID SIMILARITY_THRESHOLD d0)
    as (tp & rp & w & Hl & _ & _ & _ & _).
  rewrite Hl in *. cbn [fst snd] in Hany.
  rewrite (surjective_pairing (loop ticks COLLECTION_ID SIMILARITY_THRESHOLD boot).1) in Hany.
  rewrite Hloop in Hany. injection Hany as _ <-.
  cbn [fst snd cap_opened d0].
  split; [reflexivity|]. split; [reflexivity|]. split; [reflexivity|].
  exists (((initialize_rekognition env boot).1.1 ++
           (setup_collection env COLLECTION_ID boot).1.1) ++
          tx ++ [log INFO StartingCapture; VideoCapture 0] ++ tp).
  rewrite <- !app_assoc. reflexivity.
Qed.

Lemma exception_propagates_after_cleanup_witness :
  (main env_ok [tick_jane 91.5%float (-1); tick_interrupted] boot).1.2
    = Raises KeyboardInterrupt /\
  (main env_ok [tick_jane 91.5%float (-1); tick_interrupted] boot).2
    = {| cap_opened := false; windows := false |}.
Proof.
  pose proof (exception_propagates_after_cleanup env_ok
                [tick_jane 91.5%float (-1); tick_interrupted] KeyboardInterrupt
                eq_refl eq_refl eq_refl eq_refl eq_refl) as H.
  exact (conj (proj1 (proj2 H)) (proj1 (proj2 (proj2 H)))).
Defined.

(** An iteration that breaks the loop read no frame, or polled the key 'q'. *)
Lemma iteration_break tk cid th d t d1 :
  iteration tk cid th d = (t, Returns Break, d1) ->
  on_read tk = Value None \/
  exists key, on_waitKey tk = Value key /\ (key mod 256)%Z = 113%Z.
Proof.
  rewrite iteration_eq.
  destruct (on_read tk) as [[img|]|e]; try discriminate; [|by left].
  destruct (on_imencode tk img) as [[buf|]|e]; try discriminate.
  cbv zeta.
  destruct (decision_of (on_search tk cid buf th 1%Z) th) as [dec|];
    [|destruct (on_search tk cid buf th 1%Z); discriminate].
  destruct (on_imshow tk) as [[]|?]; [|discriminate].
  destruct (on_waitKey tk) as [key|?]; [|discriminate].
  destruct (Z.land key 255 =? 113)%Z eqn:E; [|discriminate].
  intros _. right. exists key. split; [reflexivity|].
  rewrite <- land_255. now apply Z.eqb_eq.
Qed.

(** X13.  The loop has two ways of returning, and no other: a frame read that
    fails, or the key 'q' polled after a frame is shown.  If [loop] returns,
    the script splits at the tick where that happened, and the loop was still
    running before it. *)
Theorem loop_returns_on_end_or_quit ticks cid th : forall d
    (Hreturns : (loop ticks cid th d).1.2 = Returns tt),
  exists pre tk rest,
    ticks = pre ++ tk :: rest /\
    (loop pre cid th d).1.2 = Pending /\
    (on_read tk = Value None \/
     exists key, on_waitKey tk = Value key /\ (key mod 256)%Z = 113%Z).
Proof.
  induction ticks as [|tk rest IH]; intros d Hreturns.
  - discriminate Hreturns.
  - rewrite loop_cons in Hreturns.
    destruct (iteration tk cid th d) as [[t [[]|e|]] d1] eqn:Hit;
      cbn [fst snd] in Hreturns; try discriminate.
    + destruct (loop rest cid th d1) as [[t2 r2] d2] eqn:Hl.
      cbn [fst snd] in Hreturns. subst r2.
      destruct (IH d1) as (pre & tk' & rest' & -> & Hpre & Hwhy);
        [now rewrite Hl|].
      exists (tk :: pre), tk', rest'. split; [reflexivity|]. split; [|exact Hwhy].
      rewrite loop_cons, Hit.
      destruct (loop pre cid th d1) as [[t3 r3] d3]. exact Hpre.
    + exists [], tk, rest. split; [reflexivity|]. split; [reflexivity|].
      exact (iteration_break _ _ _ _ _ _ Hit).
Qed.

Lemma loop_returns_on_end_or_quit_witness :
  exists pre tk rest,
    [tick_jane 91.5%float (-1); tick_search_fails 113; tick_end_of_stream]
      = pre ++ tk :: rest /\
    (loop pre COLLECTION_ID SIMILARITY_THRESHOLD boot).1.2 = Pending /\
    (on_read tk = Value None \/
     exists key, on_waitKey tk = Value key /\ (key mod 256)%Z = 113%Z).
Proof.
  exact (loop_returns_on_end_or_quit
           [tick_jane 91.5%float (-1); tick_search_fails 113; tick_end_of_stream]
           COLLECTION_ID SIMILARITY_THRESHOLD boot eq_refl).
Defined.

(** ** The frames on screen *)

Lemma shown_app t1 t2 : shown (t1 ++ t2) = shown t1 ++ shown t2.
Proof.
  induction t1 as [|e t1 IH]; [reflexivity|].
  destruct e; cbn; now rewrite ?IH.
Qed.

Lemma shown_records dec : shown (records dec) = [].
Proof. now destruct dec. Qed.

Lemma iteration_shown tk cid th d :
  shown (iteration tk cid th d).1.1 `sublist_of`
    match on_read tk with
    | Value (Some img) => [img]
    | _ => []
    end.
Proof.
  rewrite iteration_eq.
  destruct (on_read tk) as [[img|]|e]; [|constructor..].
  destruct (on_imencode tk img) as [[buf|]|e]; [|by apply sublist_nil_l..].
  cbv zeta.
  destruct (decision_of (on_search tk cid buf th 1%Z) th) as [dec|];
    [|by apply sublist_nil_l].
  destruct (on_imshow tk) as [[]|?]; [destruct (on_waitKey tk) as [key|?];
     [destruct (Z.land key 255 =? 113)%Z|]|]; cbn [fst snd];
    rewrite ?shown_app, shown_records; cbn; reflexivity.
Qed.

(** X14.  The frames shown are frames the camera delivered, in the order it
    delivered them, each at most once: the list of shown frames is a sublist
    of the list of delivered frames.  Nothing is buffered, reordered or shown
    again. *)
Theorem shown_frames_in_camera_order ticks cid th : forall d,
  shown (loop ticks cid th d).1.1 `sublist_of` delivered ticks.
Proof.
  induction ticks as [|tk rest IH]; intros d.
  - constructor.
  - rewrite loop_cons. pose proof (iteration_shown tk cid th d) as Hit.
    assert (Hsplit : delivered (tk :: rest) =
                     match on_read tk with
                     | Value (Some img) => [img]
                     | _ => []
                     end ++ delivered rest)
      by (cbn; destruct (on_read tk) as [[img|]|e]; reflexivity).
    rewrite Hsplit.
    destruct (iteration tk cid th d) as [[t [[]|e|]] d1]; cbn [fst snd] in *;
      try (rewrite <- (app_nil_r (shown t)); apply sublist_app;
           [exact Hit | apply sublist_nil_l]).
    specialize (IH d1). destruct (loop rest cid th d1) as [[t2 r2] d2].
    cbn [fst snd] in *. rewrite shown_app. now apply sublist_app.
Qed.

(** What is put on screen by one event: nothing, or the window of the program
    with a frame that carries exactly one of the four overlays. *)
Lemma iteration_overlays tk cid th d :
  Forall (fun e => forall w f, e = imshow w f ->
                   w = "Face Recognition" /\ exists dec, drawn f = [overlay dec])
         (iteration tk cid th d).1.1.
Proof.
  assert (Hother : forall l, List.filter is_imshow l = [] ->
            Forall (fun e => forall w f, e = imshow w f ->
                      w = "Face Recognition" /\ exists dec, drawn f = [overlay dec]) l).
  { induction l as [|e l IH]; [constructor|]. cbn.
    destruct e; cbn; try discriminate; intros H; constructor; auto; discriminate. }
  rewrite iteration_eq.
  destruct (on_read tk) as [[img|]|e]; [|by apply Hother..].
  destruct (on_imencode tk img) as [[buf|]|e]; [|by apply Hother..].
  cbv zeta.
  destruct (decision_of (on_search tk cid buf th 1%Z) th) as [dec|]; [|by apply Hother].
  assert (Hshown : Forall (fun e => forall w f, e = imshow w f ->
                      w = "Face Recognition" /\ exists dec, drawn f = [overlay dec])
                     [putText (overlay dec);
                      imshow "Face Recognition" (mkFrame img [overlay dec])]).
  { repeat constructor; try discriminate. now inversion H. inversion H. by eexists. }
  pose proof (Hother _ (records_no_imshow dec)) as Hrec.
  destruct (on_imshow tk) as [[]|?]; [destruct (on_waitKey tk) as [key|?];
     [destruct (Z.land key 255 =? 113)%Z|]|]; cbn [fst snd];
    repeat (apply Forall_app; split); try assumption; by apply Hother.
Qed.

(** X15.  Whatever the loop puts on screen, at any point of any run, is the
    window "Face Recognition" with a frame that carries exactly one text, and
    that text is one of the four overlays: never a bare frame, never two
    overlays on one frame. *)
Theorem every_shown_frame_has_one_overlay ticks cid th : forall d,
  Forall (fun e => forall w f, e = imshow w f ->
                   w = "Face Recognition" /\ exists dec, drawn f = [overlay dec])
         (loop ticks cid th d).1.1.
Proof.
  induction ticks as [|tk rest IH]; intros d.
  - constructor.
  - rewrite loop_cons. pose proof (iteration_overlays tk cid th d) as Hit.
    destruct (iteration tk cid th d) as [[t [[]|e|]] d1]; cbn [fst snd] in *;
      try assumption.
    specialize (IH d1). destruct (loop rest cid th d1) as [[t2 r2] d2].
    cbn [fst snd] in *. apply Forall_app. by split.
Qed.

(** X16.  While the loop is running the camera is held: as long as
    [run_face_recognition] has not ended, it has called neither
    [cap.release()] nor [cv2.destroyAllWindows()], and the handle is open. *)
Theorem camera_held_while_running env ticks cid th d
    (Hopened : on_VideoCapture env 0 = true)
    (Hrunning : (run_face_recognition env ticks cid th d).1.2 = Pending) :
  count is_cap_release (run_face_recognition env ticks cid th d).1.1 = 0 /\
  count is_destroyAllWindows (run_face_recognition env ticks cid th d).1.1 = 0 /\
  cap_opened (run_face_recognition env ticks cid th d).2 = true.
Proof.
  revert Hrunning. rewrite run_face_recognition_eq, Hopened. cbv zeta.
  destruct (loop_frame ticks cid th {| cap_opened := true; windows := windows d |})
    as (t & r & w & -> & H1 & H2 & _ & _).
  destruct r as [[]|e|]; cbn [fst snd cap_opened]; try discriminate.
  intros _. rewrite !count_app, H1, H2. by repeat split.
Qed.

Lemma camera_held_while_running_witness :
  count is_cap_release
    (run_face_recognition env_ok [tick_jane 91.5%float (-1); tick_encode_fails]
       COLLECTION_ID SIMILARITY_THRESHOLD boot).1.1 = 0 /\
  cap_opened
    (run_face_recognition env_ok [tick_jane 91.5%float (-1); tick_encode_fails]
       COLLECTION_ID SIMILARITY_THRESHOLD boot).2 = true.
Proof.
  pose proof (camera_held_while_running env_ok
                [tick_jane 91.5%float (-1); tick_encode_fails]
                COLLECTION_ID SIMILARITY_THRESHOLD boot eq_refl eq_refl) as H.
  exact (conj (proj1 H) (proj2 (proj2 H))).
Defined.
